(** * Socrates math tutor: the conversation component and its model client

    A shallow embedding of the two source files of the application:
    - [src/services/gemini.ts]: [SYSTEM_INSTRUCTION], [analyzeMathProblem]
      and [chatWithTutor] (module [Gemini] below);
    - the [App] component: its state, [handleImageUpload]'s [onloadend]
      callback, [startInitialAnalysis], [handleSendMessage], [resetTutor]
      and the [disabled] attributes of the form (module [App] below).

    Asynchronous handlers are written in a small monad [Prog] whose
    constructors are the effects the handlers have: a React state setter,
    [console.error], a [throw], and an [await] of a call to the remote model.
    [exec] runs a handler to completion against a remote model; [start]
    runs it up to its [await] and leaves the continuation, so that
    [App.dispatch] can take other events while the request is outstanding. *)

From Stdlib Require Import List String Ascii NArith Bool Arith Lia.
Import ListNotations.

Set Implicit Arguments.

(* ================================================================= *)
(** ** JavaScript strings *)

Module JS.

(** A JavaScript string is a sequence of UTF-16 code units. *)
Definition jsstring : Type := list N.

(** An ASCII literal of the source as a [jsstring]. *)
Definition js (s : string) : jsstring :=
  map N_of_ascii (list_ascii_of_string s).

(** ECMAScript [WhiteSpace] and [LineTerminator] code points, the ones
    [String.prototype.trim] strips: TAB, LF, VT, FF, CR, SP, NBSP,
    U+1680, U+2000..U+200A, U+2028, U+2029, U+202F, U+205F, U+3000 and
    U+FEFF. *)
Definition isWhiteSpace (c : N) : bool :=
  ((9 <=? c) && (c <=? 13) || (c =? 32) || (c =? 160) || (c =? 5760)
   || (8192 <=? c) && (c <=? 8202) || (c =? 8232) || (c =? 8233)
   || (c =? 8239) || (c =? 8287) || (c =? 12288) || (c =? 65279))%N.

Fixpoint trimStart (s : jsstring) : jsstring :=
  match s with
  | [] => []
  | c :: r => if isWhiteSpace c then trimStart r else s
  end.

Definition trimEnd (s : jsstring) : jsstring := rev (trimStart (rev s)).

(** [s.trim()] *)
Definition trim (s : jsstring) : jsstring := trimEnd (trimStart s).

(** Truthiness of a string: only the empty string is falsy. *)
Definition truthy (s : jsstring) : bool :=
  match s with [] => false | _ :: _ => true end.

(** Truthiness of [string | undefined]. *)
Definition truthy_opt (s : option jsstring) : bool :=
  match s with None => false | Some v => truthy v end.

(** [s || d] for [s : string | undefined]. *)
Definition or_else (s : option jsstring) (d : jsstring) : jsstring :=
  match s with
  | Some v => if truthy v then v else d
  | None => d
  end.

(** The text is empty or made of white space only. *)
Definition blank (s : jsstring) : bool := forallb isWhiteSpace s.

(** [s.split(sep)] for a separator [sep] of one code unit: the pieces of
    [s] between the separators, in order; never an empty array. *)
Fixpoint split (sep : N) (s : jsstring) : list jsstring :=
  match s with
  | [] => [[]]
  | c :: r =>
      if (c =? sep)%N then [] :: split sep r
      else match split sep r with
           | piece :: pieces => (c :: piece) :: pieces
           | [] => [[c]]
           end
  end.

(** The code unit of [","]. *)
Definition COMMA : N := 44%N.

End JS.

Import JS.

(* ================================================================= *)
(** ** Data model of the component *)

Inductive Role : Type := user | model.

(** [interface Message { role; content; image? }] *)
Record Message : Type := mkMessage {
  role : Role;
  content : jsstring;
  image : option jsstring
}.

(** The [useState] cells of [App]. *)
Record AppState : Type := mkApp {
  messages : list Message;
  input : jsstring;
  isLoading : bool;
  selectedImage : option jsstring;
  mimeType : option jsstring
}.

(** [useState] initial values. *)
Definition initialState : AppState :=
  {| messages := []; input := []; isLoading := false;
     selectedImage := None; mimeType := None |}.

(* ================================================================= *)
(** ** The part of the [@google/genai] interface the program uses *)

Module SDK.

(** A thrown value: [new Error(message)], or whatever the SDK rejects
    with. *)
Inductive Error : Type := JsError (message : jsstring).

Record Blob : Type := { data : jsstring; mimeType : jsstring }.

Inductive Part : Type :=
| inlineData (b : Blob)
| text (t : jsstring).

Inductive Content : Type := content (parts : list Part).

(** Only [HIGH] occurs in the program. *)
Inductive ThinkingLevel : Type := LOW | HIGH.

Record ThinkingConfig : Type := { thinkingLevel : ThinkingLevel }.

Record Config : Type := {
  systemInstruction : jsstring;
  thinkingConfig : ThinkingConfig
}.

(** Argument of [ai.models.generateContent]. *)
Record GenerateContentParameters : Type := {
  gc_model : jsstring;
  contents : list Content;
  gc_config : Config
}.

(** [{ role: "user" | "model"; parts: { text: string }[] }] *)
Record TextPart : Type := { part_text : jsstring }.
Record HistoryEntry : Type := { role : Role; parts : list TextPart }.

(** Argument of [ai.chats.create]. *)
Record CreateChatParameters : Type := {
  chat_model : jsstring;
  chat_config : Config;
  history : list HistoryEntry
}.

(** [new GoogleGenAI({ apiKey })] *)
Record GoogleGenAI : Type := { apiKey : jsstring }.

(** [response.text] is [string | undefined]. *)
Record Response : Type := { response_text : option jsstring }.

(** The two requests the program sends to the remote model. *)
Inductive RemoteCall : Type :=
| generateContent (ai : GoogleGenAI) (params : GenerateContentParameters)
| sendMessage (ai : GoogleGenAI) (chat : CreateChatParameters)
              (message : jsstring).

(** A settled promise: rejected with an error, or resolved. *)
Definition Outcome : Type := (Error + Response)%type.

(** The remote model, as far as a single exchange is concerned. *)
Definition RemoteModel : Type := RemoteCall -> Outcome.

End SDK.

(* ================================================================= *)
(** ** Effects of the handlers *)

(** What a handler does to the world besides calling the remote model.
    [SetMessages] takes the updater form [prev => ...]; a setter called
    with a plain value is the constant updater. *)
Inductive Action : Type :=
| SetMessages (u : list Message -> list Message)
| SetInput (v : jsstring)
| SetIsLoading (v : bool)
| SetSelectedImage (v : option jsstring)
| SetMimeType (v : option jsstring)
| ConsoleError (e : SDK.Error).

(** The component state, the requests issued so far (oldest first) and
    the console. *)
Record World : Type := mkWorld {
  state : AppState;
  calls : list SDK.RemoteCall;
  console : list SDK.Error
}.

Definition initialWorld : World :=
  {| state := initialState; calls := []; console := [] |}.

Definition update (f : AppState -> AppState) (w : World) : World :=
  {| state := f (state w); calls := calls w; console := console w |}.

Definition perform (a : Action) (w : World) : World :=
  match a with
  | SetMessages u =>
      update (fun s => mkApp (u (messages s)) (input s) (isLoading s)
                             (selectedImage s) (mimeType s)) w
  | SetInput v =>
      update (fun s => mkApp (messages s) v (isLoading s)
                             (selectedImage s) (mimeType s)) w
  | SetIsLoading v =>
      update (fun s => mkApp (messages s) (input s) v
                             (selectedImage s) (mimeType s)) w
  | SetSelectedImage v =>
      update (fun s => mkApp (messages s) (input s) (isLoading s)
                             v (mimeType s)) w
  | SetMimeType v =>
      update (fun s => mkApp (messages s) (input s) (isLoading s)
                             (selectedImage s) v) w
  | ConsoleError e =>
      {| state := state w; calls := calls w; console := console w ++ [e] |}
  end.

Definition issue (c : SDK.RemoteCall) (w : World) : World :=
  {| state := state w; calls := calls w ++ [c]; console := console w |}.

(** Programs: a tree of effects ending in a value or a thrown error. *)
Inductive Prog (A : Type) : Type :=
| Ret (a : A)
| Throw (e : SDK.Error)
| Act (a : Action) (k : Prog A)
| Await (c : SDK.RemoteCall) (k : SDK.Outcome -> Prog A).

Arguments Ret {A} a.
Arguments Throw {A} e.
Arguments Act {A} a k.
Arguments Await {A} c k.

Fixpoint bind {A B : Type} (p : Prog A) (f : A -> Prog B) : Prog B :=
  match p with
  | Ret a => f a
  | Throw e => Throw e
  | Act a k => Act a (bind k f)
  | Await c k => Await c (fun r => bind (k r) f)
  end.

Declare Scope prog_scope.
Delimit Scope prog_scope with prog.
Notation "x <- p ;; q" := (bind p (fun x => q))
  (at level 61, p at next level, right associativity) : prog_scope.
Notation "p ;; q" := (bind p (fun _ => q))
  (at level 61, right associativity) : prog_scope.
Local Open Scope prog_scope.

Definition act (a : Action) : Prog unit := Act a (Ret tt).

(** [await] of a request: a rejection is rethrown at the [await]. *)
Definition await (c : SDK.RemoteCall) : Prog SDK.Response :=
  Await c (fun r => match r with inl e => Throw e | inr v => Ret v end).

(** [try { p } catch (error) { h error }] *)
Fixpoint tryCatch {A : Type} (p : Prog A) (h : SDK.Error -> Prog A) : Prog A :=
  match p with
  | Ret a => Ret a
  | Throw e => h e
  | Act a k => Act a (tryCatch k h)
  | Await c k => Await c (fun r => tryCatch (k r) h)
  end.

(** [try { p } finally { f }]: [f] runs on both exits and the completion of
    [p] is kept, unless [f] itself throws. *)
Fixpoint tryFinally {A : Type} (p : Prog A) (f : Prog unit) : Prog A :=
  match p with
  | Ret a => f ;; Ret a
  | Throw e => f ;; Throw e
  | Act a k => Act a (tryFinally k f)
  | Await c k => Await c (fun r => tryFinally (k r) f)
  end.

(** Run a program to completion, the remote model answering at once. *)
Fixpoint exec {A : Type} (remote : SDK.RemoteModel) (p : Prog A) (w : World)
  : World * (SDK.Error + A) :=
  match p with
  | Ret a => (w, inr a)
  | Throw e => (w, inl e)
  | Act a k => exec remote k (perform a w)
  | Await c k => exec remote (k (remote c)) (issue c w)
  end.

(** Where a program stands once it has run as far as it can without an
    answer from the remote model. *)
Inductive Suspended (A : Type) : Type :=
| Finished (r : SDK.Error + A)
| Waiting (c : SDK.RemoteCall) (k : SDK.Outcome -> Prog A).

Arguments Finished {A} r.
Arguments Waiting {A} c k.

(** Run up to the first [await] (the request is issued) or to the end. *)
Fixpoint start {A : Type} (p : Prog A) (w : World) : World * Suspended A :=
  match p with
  | Ret a => (w, Finished (inr a))
  | Throw e => (w, Finished (inl e))
  | Act a k => start k (perform a w)
  | Await c k => (issue c w, Waiting c k)
  end.


(** The completion of a program: its value, or the error it throws.  It
    depends on the answers of the remote model only. *)
Fixpoint answer {A : Type} (remote : SDK.RemoteModel) (p : Prog A)
  : SDK.Error + A :=
  match p with
  | Ret a => inr a
  | Throw e => inl e
  | Act _ k => answer remote k
  | Await c k => answer remote (k (remote c))
  end.

(* ================================================================= *)
(** ** [src/services/gemini.ts] *)

Module Gemini.

Definition LF : jsstring := [10%N].
Definition DQUOTE : jsstring := [34%N].

Definition SYSTEM_INSTRUCTION : jsstring :=
  js "You are Socrates, a compassionate and patient math tutor. " ++ LF ++
  js "Your goal is to help students solve calculus and algebra problems using the Socratic method." ++ LF ++
  LF ++
  js "CRITICAL RULES:" ++ LF ++
  js "1. NEVER give the full solution or the final answer immediately." ++ LF ++
  js "2. When a student uploads an image, identify the problem and walk them through ONLY the first step." ++ LF ++
  js "3. Use a warm, encouraging, and patient tone." ++ LF ++
  js "4. If a student asks " ++ DQUOTE ++ js "Why did we do that?" ++ DQUOTE ++
  js " or seems stuck, explain the specific underlying concept or mathematical principle in simple terms before moving forward." ++ LF ++
  js "5. After each explanation or step, ask a leading question to guide the student to the next logical step." ++ LF ++
  js "6. Use LaTeX for mathematical notation (e.g., $x^2$, $\int f(x) dx$)." ++ LF ++
  js "7. If the student gets a step right, praise them and move to the next step." ++ LF ++
  js "8. If they get it wrong, gently point out the error and ask a question that helps them see the mistake." ++ LF ++
  LF ++
  js "Your responses should be structured to be easily readable, using Markdown and LaTeX.".

(** The narrowing of [string | undefined] to [string] behind the guard
    [if (!GEMINI_API_KEY) throw]. *)
Definition narrowed (k : option jsstring) : jsstring :=
  match k with Some v => v | None => [] end.

Section WithEnvironment.

(** [process.env.GEMINI_API_KEY], read once when the module is loaded. *)
Variable GEMINI_API_KEY : option jsstring.

(** The element type of the [any[]] parameter. *)
Variable any : Type.

(** [history] is [None] when the optional argument is omitted. *)
Definition analyzeMathProblem
  (imageBuffer mimeType : jsstring) (history : option (list any))
  : Prog jsstring :=
  let history := match history with Some h => h | None => [] end in
  if negb (truthy_opt GEMINI_API_KEY) then
    Throw (SDK.JsError (js "GEMINI_API_KEY is not set"))
  else
    let ai := {| SDK.apiKey := narrowed GEMINI_API_KEY |} in
    let contents :=
      [ SDK.content
          [ SDK.inlineData {| SDK.data := imageBuffer;
                              SDK.mimeType := mimeType |};
            SDK.text (js "Please analyze this math problem and guide me through the first step using the Socratic method.") ] ] in
    response <- await (SDK.generateContent ai
      {| SDK.gc_model := js "gemini-3.1-pro-preview";
         SDK.contents := contents;
         SDK.gc_config :=
           {| SDK.systemInstruction := SYSTEM_INSTRUCTION;
              SDK.thinkingConfig := {| SDK.thinkingLevel := SDK.HIGH |} |} |}) ;;
    Ret (or_else (SDK.response_text response)
           (js "I'm sorry, I couldn't analyze the image. Could you try again?")).

Definition chatWithTutor
  (message : jsstring) (history : list SDK.HistoryEntry) : Prog jsstring :=
  if negb (truthy_opt GEMINI_API_KEY) then
    Throw (SDK.JsError (js "GEMINI_API_KEY is not set"))
  else
    let ai := {| SDK.apiKey := narrowed GEMINI_API_KEY |} in
    let chat :=
      {| SDK.chat_model := js "gemini-3.1-pro-preview";
         SDK.chat_config :=
           {| SDK.systemInstruction := SYSTEM_INSTRUCTION;
              SDK.thinkingConfig := {| SDK.thinkingLevel := SDK.HIGH |} |};
         SDK.history := history |} in
    response <- await (SDK.sendMessage ai chat message) ;;
    Ret (or_else (SDK.response_text response)
           (js "I'm having trouble thinking right now. Let's try that again.")).

End WithEnvironment.

End Gemini.

(* ================================================================= *)
(** ** The [App] component *)

Module App.

Section WithEnvironment.

Variable GEMINI_API_KEY : option jsstring.

(** The call [analyzeMathProblem(image, type)] passes no [history]; its
    [any[]] is instantiated at [unit] here. *)
Definition startInitialAnalysis (image type : jsstring) : Prog unit :=
  act (SetIsLoading true) ;;
  act (SetMessages (fun _ =>
    [ {| role := user;
         content := js "I've uploaded a math problem. Can you help me?";
         image := Some (js "data:" ++ type ++ js ";base64," ++ image) |} ])) ;;
  tryFinally
    (tryCatch
       (response <- Gemini.analyzeMathProblem GEMINI_API_KEY (any:=unit)
                      image type None ;;
        act (SetMessages (fun prev =>
          prev ++ [ {| role := model; content := response; image := None |} ])))
       (fun error =>
          act (ConsoleError error) ;;
          act (SetMessages (fun prev =>
            prev ++ [ {| role := model;
                         content := js "I'm sorry, I had trouble seeing that image. Could you try uploading it again?";
                         image := None |} ]))))
    (act (SetIsLoading false)).

(** [reader.onloadend] of [handleImageUpload], given the base64 payload
    [(reader.result as string).split(',')[1]] and [file.type]. *)
Definition onloadend (base64String fileType : jsstring) : Prog unit :=
  act (SetSelectedImage (Some base64String)) ;;
  act (SetMimeType (Some fileType)) ;;
  startInitialAnalysis base64String fileType.

(** [handleSendMessage] closes over the [messages], [input] and
    [isLoading] of the render it belongs to: [snap].  ([e.preventDefault()]
    acts on the DOM event only.) *)
Definition handleSendMessage (snap : AppState) : Prog unit :=
  if negb (truthy (trim (input snap))) || isLoading snap then Ret tt
  else
    let userMessage := input snap in
    act (SetInput []) ;;
    act (SetMessages (fun prev =>
      prev ++ [ {| role := user; content := userMessage; image := None |} ])) ;;
    act (SetIsLoading true) ;;
    tryFinally
      (tryCatch
         (let history :=
            map (fun m => {| SDK.role := role m;
                             SDK.parts := [ {| SDK.part_text := content m |} ] |})
                (messages snap) in
          response <- Gemini.chatWithTutor GEMINI_API_KEY userMessage history ;;
          act (SetMessages (fun prev =>
            prev ++ [ {| role := model; content := response; image := None |} ])))
         (fun error =>
            act (ConsoleError error) ;;
            act (SetMessages (fun prev =>
              prev ++ [ {| role := model;
                           content := js "I'm sorry, my thoughts are a bit scattered. Could you repeat that?";
                           image := None |} ]))))
      (act (SetIsLoading false)).

Definition resetTutor : Prog unit :=
  act (SetMessages (fun _ => [])) ;;
  act (SetSelectedImage None) ;;
  act (SetMimeType None) ;;
  act (SetInput []).

(** [disabled={isLoading || messages.length === 0}] of the text field. *)
Definition inputDisabled (snap : AppState) : bool :=
  isLoading snap || (List.length (messages snap) =? 0)%nat.

(** [disabled={!input.trim() || isLoading || messages.length === 0}] of
    the submit button. *)
Definition sendDisabled (snap : AppState) : bool :=
  negb (truthy (trim (input snap))) || isLoading snap
  || (List.length (messages snap) =? 0)%nat.

(** [onChange={(e) => setInput(e.target.value)}]; a disabled field takes
    no input. *)
Definition onChange (snap : AppState) (value : jsstring) : Prog unit :=
  if inputDisabled snap then Ret tt else act (SetInput value).

(** [<form onSubmit={handleSendMessage}>]: the form is submitted through
    its submit button, and not at all while that button is disabled. *)
Definition onSubmit (snap : AppState) : Prog unit :=
  if sendDisabled snap then Ret tt else handleSendMessage snap.

(** [(reader.result as string).split(',')[1]] in [handleImageUpload]: the
    second piece of the reader's result, [None] standing for [undefined]
    when the result has no comma.  [onloadend] above is the callback from
    this value on. *)
Definition base64String (result : jsstring) : option jsstring :=
  nth_error (split COMMA result) 1.

(** *** The page between events *)

(** The world, and the continuations of the handlers that are suspended at
    an [await], oldest first. *)
Record Page : Type := mkPage {
  world : World;
  pending : list (SDK.Outcome -> Prog unit)
}.

Definition initialPage : Page := {| world := initialWorld; pending := [] |}.

Definition transcript (s : Page) : list Message := messages (state (world s)).

Inductive Event : Type :=
| Change (value : jsstring)                 (* the text field is edited *)
| Submit                                    (* the form is submitted *)
| Reset                                     (* "Start New Problem" *)
| Loaded (base64String fileType : jsstring) (* the file reader is done *)
| Settle (i : nat) (r : SDK.Outcome).       (* an outstanding request settles *)

(** Run a handler until it returns or awaits; a rejection nobody awaits is
    dropped. *)
Definition run (p : Prog unit) (w : World)
  (others : list (SDK.Outcome -> Prog unit)) : Page :=
  match start p w with
  | (w', Finished _) => {| world := w'; pending := others |}
  | (w', Waiting _ k) => {| world := w'; pending := others ++ [k] |}
  end.

Fixpoint remove_nth {A : Type} (i : nat) (l : list A) : list A :=
  match l, i with
  | [], _ => []
  | _ :: r, O => r
  | x :: r, S j => x :: remove_nth j r
  end.

(** One event.  A handler belongs to the latest render, so the [messages],
    [input] and [isLoading] it closes over are the current ones.  [Loaded]
    is taken in any state: the reader finishes some time after the file was
    picked. *)
Definition dispatch (ev : Event) (s : Page) : Page :=
  let snap := state (world s) in
  match ev with
  | Change value => run (onChange snap value) (world s) (pending s)
  | Submit => run (onSubmit snap) (world s) (pending s)
  | Reset => run resetTutor (world s) (pending s)
  | Loaded base64String fileType =>
      run (onloadend base64String fileType) (world s) (pending s)
  | Settle i r =>
      match nth_error (pending s) i with
      | Some k => run (k r) (world s) (remove_nth i (pending s))
      | None => s
      end
  end.

Definition session (evs : list Event) (s : Page) : Page :=
  fold_left (fun s ev => dispatch ev s) evs s.

(** The pages a session can be in. *)
Inductive reachable : Page -> Prop :=
| reachable_initial : reachable initialPage
| reachable_dispatch ev s : reachable s -> reachable (dispatch ev s).

End WithEnvironment.

End App.

(* ================================================================= *)
(** ** Vocabulary of the properties *)

(** The configuration both operations send. *)
Definition tutorConfig : SDK.Config :=
  {| SDK.systemInstruction := Gemini.SYSTEM_INSTRUCTION;
     SDK.thinkingConfig := {| SDK.thinkingLevel := SDK.HIGH |} |}.

(** The request of the analyze-image operation: the image, its MIME type,
    the fixed prompt and the fixed configuration. *)
Definition analysisRequest (key : option jsstring)
  (imageBuffer mimeType : jsstring) : SDK.RemoteCall :=
  SDK.generateContent {| SDK.apiKey := Gemini.narrowed key |}
    {| SDK.gc_model := js "gemini-3.1-pro-preview";
       SDK.contents :=
         [ SDK.content
             [ SDK.inlineData {| SDK.data := imageBuffer;
                                 SDK.mimeType := mimeType |};
               SDK.text (js "Please analyze this math problem and guide me through the first step using the Socratic method.") ] ];
       SDK.gc_config := tutorConfig |}.

(** The request of the continue-chat operation. *)
Definition chatRequest (key : option jsstring)
  (message : jsstring) (history : list SDK.HistoryEntry) : SDK.RemoteCall :=
  SDK.sendMessage {| SDK.apiKey := Gemini.narrowed key |}
    {| SDK.chat_model := js "gemini-3.1-pro-preview";
       SDK.chat_config := tutorConfig;
       SDK.history := history |}
    message.

(** The error of a call made without a credential. *)
Definition missingKey : SDK.Error :=
  SDK.JsError (js "GEMINI_API_KEY is not set").

(** What the client returns for a response without text. *)
Definition analysisEmptyFallback : jsstring :=
  js "I'm sorry, I couldn't analyze the image. Could you try again?".

Definition chatEmptyFallback : jsstring :=
  js "I'm having trouble thinking right now. Let's try that again.".

(** What the component shows when the client throws. *)
Definition analysisApology : jsstring :=
  js "I'm sorry, I had trouble seeing that image. Could you try uploading it again?".

Definition chatApology : jsstring :=
  js "I'm sorry, my thoughts are a bit scattered. Could you repeat that?".

(** The text a settled request turns into. *)
Definition textOf (fallback : jsstring) (r : SDK.Outcome)
  : SDK.Error + jsstring :=
  match r with
  | inl e => inl e
  | inr response => inr (or_else (SDK.response_text response) fallback)
  end.

(** The user turn that opens an analysis. *)
Definition imageTurn (image type : jsstring) : Message :=
  {| role := user;
     content := js "I've uploaded a math problem. Can you help me?";
     image := Some (js "data:" ++ type ++ js ";base64," ++ image) |}.

Definition userTurn (text : jsstring) : Message :=
  {| role := user; content := text; image := None |}.

Definition modelTurn (text : jsstring) : Message :=
  {| role := model; content := text; image := None |}.

(** Remote History Entry: a message [{role, content, image?}] is projected
    to [{role, parts: [{text: content}]}]. *)
Definition remoteHistoryEntry (m : Message) : SDK.HistoryEntry :=
  {| SDK.role := role m; SDK.parts := [ {| SDK.part_text := content m |} ] |}.

(** The conversation has a turn that carries an image. *)
Definition hasImageTurn (l : list Message) : bool :=
  existsb (fun m => match image m with Some _ => true | None => false end) l.

(** A state setter that may only extend the transcript. *)
Definition extending (a : Action) : Prop :=
  match a with
  | SetMessages u => forall prev, exists suffix, u prev = prev ++ suffix
  | _ => True
  end.

(** A program all of whose transcript updates are extensions. *)
Inductive Appending {A : Type} : Prog A -> Prop :=
| Appending_Ret a : Appending (Ret a)
| Appending_Throw e : Appending (Throw e)
| Appending_Act a k : extending a -> Appending k -> Appending (Act a k)
| Appending_Await c k : (forall r, Appending (k r)) -> Appending (Await c k).

(** The continuations a page may hold: appending ones. *)
Definition appendingOnly (ks : list (SDK.Outcome -> Prog unit)) : Prop :=
  Forall (fun k => forall r, Appending (k r)) ks.

(** The model turn an exchange ends with: the text the client returned,
    or the apology of the handler when the client threw. *)
Definition closingTurn (apology : jsstring) (r : SDK.Error + jsstring)
  : Message :=
  match r with
  | inr response => modelTurn response
  | inl _ => modelTurn apology
  end.

(** The console after an exchange: the caught error is logged. *)
Definition logged (r : SDK.Error + jsstring) (l : list SDK.Error)
  : list SDK.Error :=
  match r with
  | inr _ => l
  | inl e => l ++ [e]
  end.

(** ** Sample inputs *)

Definition sampleKey : option jsstring := Some (js "secret").

(** A remote model that resolves every request with the text [t]. *)
Definition replying (t : option jsstring) : SDK.RemoteModel :=
  fun _ => inr {| SDK.response_text := t |}.

(** A remote model that rejects every request. *)
Definition rejecting : SDK.RemoteModel :=
  fun _ => inl (SDK.JsError (js "fetch failed")).

Definition sampleImage : jsstring := js "iVBORw0KGgo=".
Definition samplePng : jsstring := js "image/png".

(** A world whose component holds [msgs] and the text [text]. *)
Definition worldWith (msgs : list Message) (text : jsstring) (loading : bool)
  : World :=
  {| state := {| messages := msgs; input := text; isLoading := loading;
                 selectedImage := None; mimeType := None |};
     calls := []; console := [] |}.

(** ** Steps of a session *)

(** The two exchanges: the analysis of an image and a chat turn. *)
Inductive Exchange : Type := Analysis | Chat.

Definition fallbackOf (x : Exchange) : jsstring :=
  match x with
  | Analysis => analysisEmptyFallback
  | Chat => chatEmptyFallback
  end.

Definition apologyOf (x : Exchange) : jsstring :=
  match x with
  | Analysis => analysisApology
  | Chat => chatApology
  end.

(** The world once the exchange whose request settled with [r] is closed:
    one model turn is appended, the in-flight flag is cleared, and an error
    that was caught is on the console. *)
Definition closeExchange (x : Exchange) (r : SDK.Outcome) (w : World) : World :=
  {| state :=
       {| messages :=
            messages (state w)
            ++ [closingTurn (apologyOf x) (textOf (fallbackOf x) r)];
          input := input (state w);
          isLoading := false;
          selectedImage := selectedImage (state w);
          mimeType := mimeType (state w) |};
     calls := calls w;
     console := logged (textOf (fallbackOf x) r) (console w) |}.

(** A continuation that closes an exchange, whatever the outcome and the
    world it is resumed in. *)
Definition settles (x : Exchange) (k : SDK.Outcome -> Prog unit) : Prop :=
  forall r w, start (k r) w = (closeExchange x r w, Finished (inr tt)).

Definition exchangeContinuation (k : SDK.Outcome -> Prog unit) : Prop :=
  exists x, settles x k.

(** The world when [onloadend] is suspended at its request. *)
Definition analysisOpened (key : option jsstring) (b t : jsstring) (w : World)
  : World :=
  {| state :=
       {| messages := [imageTurn b t];
          input := input (state w);
          isLoading := true;
          selectedImage := Some b;
          mimeType := Some t |};
     calls := calls w ++ [analysisRequest key b t];
     console := console w |}.

(** The world after [onloadend] without a credential. *)
Definition analysisRefused (b t : jsstring) (w : World) : World :=
  {| state :=
       {| messages := [imageTurn b t; modelTurn analysisApology];
          input := input (state w);
          isLoading := false;
          selectedImage := Some b;
          mimeType := Some t |};
     calls := calls w;
     console := console w ++ [missingKey] |}.

(** The world when [handleSendMessage] is suspended at its request. *)
Definition chatOpened (key : option jsstring) (w : World) : World :=
  {| state :=
       {| messages := messages (state w) ++ [userTurn (input (state w))];
          input := [];
          isLoading := true;
          selectedImage := selectedImage (state w);
          mimeType := mimeType (state w) |};
     calls := calls w
              ++ [chatRequest key (input (state w))
                    (map remoteHistoryEntry (messages (state w)))];
     console := console w |}.

(** The world after [handleSendMessage] without a credential. *)
Definition chatRefused (w : World) : World :=
  {| state :=
       {| messages := (messages (state w) ++ [userTurn (input (state w))])
                      ++ [modelTurn chatApology];
          input := [];
          isLoading := false;
          selectedImage := selectedImage (state w);
          mimeType := mimeType (state w) |};
     calls := calls w;
     console := console w ++ [missingKey] |}.

(** The world after [resetTutor]. *)
Definition cleared (w : World) : World :=
  {| state :=
       {| messages := []; input := []; isLoading := isLoading (state w);
          selectedImage := None; mimeType := None |};
     calls := calls w;
     console := console w |}.

(** What one event does to a page, case by case. *)
Inductive Step (key : option jsstring)
  : App.Page -> App.Event -> App.Page -> Prop :=
| Step_change_disabled w ks v :
    App.inputDisabled (state w) = true ->
    Step key (App.mkPage w ks) (App.Change v) (App.mkPage w ks)
| Step_change w ks v :
    App.inputDisabled (state w) = false ->
    Step key (App.mkPage w ks) (App.Change v)
         (App.mkPage (perform (SetInput v) w) ks)
| Step_submit_disabled w ks :
    App.sendDisabled (state w) = true ->
    Step key (App.mkPage w ks) App.Submit (App.mkPage w ks)
| Step_submit_sent w ks k :
    App.sendDisabled (state w) = false ->
    truthy_opt key = true ->
    settles Chat k ->
    Step key (App.mkPage w ks) App.Submit
         (App.mkPage (chatOpened key w) (ks ++ [k]))
| Step_submit_refused w ks :
    App.sendDisabled (state w) = false ->
    truthy_opt key = false ->
    Step key (App.mkPage w ks) App.Submit (App.mkPage (chatRefused w) ks)
| Step_reset w ks :
    Step key (App.mkPage w ks) App.Reset (App.mkPage (cleared w) ks)
| Step_loaded_sent w ks b t k :
    truthy_opt key = true ->
    settles Analysis k ->
    Step key (App.mkPage w ks) (App.Loaded b t)
         (App.mkPage (analysisOpened key b t w) (ks ++ [k]))
| Step_loaded_refused w ks b t :
    truthy_opt key = false ->
    Step key (App.mkPage w ks) (App.Loaded b t)
         (App.mkPage (analysisRefused b t w) ks)
| Step_settle w ks i r k x :
    nth_error ks i = Some k ->
    settles x k ->
    Step key (App.mkPage w ks) (App.Settle i r)
         (App.mkPage (closeExchange x r w) (App.remove_nth i ks))
| Step_settle_unknown w ks i r :
    nth_error ks i = None ->
    Step key (App.mkPage w ks) (App.Settle i r) (App.mkPage w ks).

(** A turn without an image whose text, when it is the user's, is not
    blank. *)
Definition plainTurn (m : Message) : Prop :=
  image m = None /\ (role m = user -> blank (content m) = false).

(** A transcript in which only the first message may be an image turn. *)
Definition shaped (l : list Message) : Prop :=
  match l with
  | [] => True
  | m :: rest =>
      (plainTurn m \/ exists b t, m = imageTurn b t) /\ Forall plainTurn rest
  end.

(** A request the component can have issued with the credential [key]. *)
Definition issuedBy (key : option jsstring) (c : SDK.RemoteCall) : Prop :=
  (exists b t, c = analysisRequest key b t)
  \/ (exists text l,
        c = chatRequest key text (map remoteHistoryEntry l)
        /\ blank text = false /\ l <> []).

(** An event of the text form. *)
Definition textEvent (ev : App.Event) : Prop :=
  match ev with
  | App.Change _ | App.Submit => True
  | _ => False
  end.

(* ================================================================= *)
(** * Properties *)

(** ** Strings *)

Section Trim.

Lemma trimStart_nil_iff (s : jsstring) : trimStart s = [] <-> blank s = true.
Proof.
  unfold blank.
  induction s as [|c r IH]; simpl.
  - tauto.
  - destruct (isWhiteSpace c); simpl.
    + exact IH.
    + split; discriminate.
Qed.

Lemma blank_rev (s : jsstring) : blank (rev s) = blank s.
Proof.
  unfold blank.
  induction s as [|c r IH]; simpl; [reflexivity|].
  rewrite forallb_app, IH. simpl.
  rewrite andb_true_r. apply andb_comm.
Qed.

(** What [trimStart] returns is empty or begins with a character that is
    not white space. *)
Lemma trimStart_blank (s : jsstring) :
  blank (trimStart s) = true -> trimStart s = [].
Proof.
  induction s as [|c r IH]; simpl; [reflexivity|].
  destruct (isWhiteSpace c) eqn:E; [exact IH|].
  unfold blank. simpl. rewrite E. discriminate.
Qed.

(** [!s.trim()] holds exactly when [s] is empty or white space only. *)
Lemma not_trim_blank (s : jsstring) : negb (truthy (trim s)) = blank s.
Proof.
  destruct (blank s) eqn:B.
  - apply trimStart_nil_iff in B. unfold trim, trimEnd. rewrite B. reflexivity.
  - destruct (trim s) eqn:T; [|reflexivity].
    exfalso.
    unfold trim, trimEnd in T.
    assert (R : trimStart (rev (trimStart s)) = []).
    { rewrite <- (rev_involutive (trimStart _)), T. reflexivity. }
    apply trimStart_nil_iff in R. rewrite blank_rev in R.
    apply trimStart_blank, trimStart_nil_iff in R. congruence.
Qed.

End Trim.

(** ** Programs *)

Section Programs.

Variable remote : SDK.RemoteModel.

Lemma exec_answer {A} (p : Prog A) (w : World) :
  snd (exec remote p w) = answer remote p.
Proof.
  revert w. induction p as [a|e|a k IH|c k IH]; intro w; simpl; auto.
Qed.

Lemma exec_bind {A B} (p : Prog A) (f : A -> Prog B) (w : World) :
  exec remote (bind p f) w =
  match exec remote p w with
  | (w1, inr a) => exec remote (f a) w1
  | (w1, inl e) => (w1, inl e)
  end.
Proof.
  revert w. induction p as [a|e|a k IH|c k IH]; intro w; simpl; auto.
Qed.

Lemma exec_tryCatch {A} (p : Prog A) (h : SDK.Error -> Prog A) (w : World) :
  exec remote (tryCatch p h) w =
  match exec remote p w with
  | (w1, inr a) => (w1, inr a)
  | (w1, inl e) => exec remote (h e) w1
  end.
Proof.
  revert w. induction p as [a|e|a k IH|c k IH]; intro w; simpl; auto.
Qed.

Lemma exec_tryFinally {A} (p : Prog A) (f : Prog unit) (w : World) :
  exec remote (tryFinally p f) w =
  match exec remote p w with
  | (w1, r) =>
      match exec remote f w1 with
      | (w2, inr _) => (w2, r)
      | (w2, inl e) => (w2, inl e)
      end
  end.
Proof.
  revert w. induction p as [a|e|a k IH|c k IH]; intro w; simpl; auto;
    rewrite exec_bind; destruct (exec remote f w) as [w2 [e'|[]]]; reflexivity.
Qed.

(** Running to completion is running to the [await], asking the remote
    model, and running the continuation. *)
Lemma exec_start {A} (p : Prog A) (w : World) :
  exec remote p w =
  match start p w with
  | (w1, Finished r) => (w1, r)
  | (w1, Waiting c k) => exec remote (k (remote c)) w1
  end.
Proof.
  revert w. induction p as [a|e|a k IH|c k IH]; intro w; simpl; auto.
Qed.

End Programs.

(** ** The model client *)

Section Client.

Variable key : option jsstring.
Variable remote : SDK.RemoteModel.

Lemma analyzeMathProblem_exec (any : Type) imageBuffer mimeType
  (history : option (list any)) (w : World) :
  exec remote (Gemini.analyzeMathProblem key imageBuffer mimeType history) w =
  if truthy_opt key
  then (issue (analysisRequest key imageBuffer mimeType) w,
        textOf analysisEmptyFallback
               (remote (analysisRequest key imageBuffer mimeType)))
  else (w, inl missingKey).
Proof.
  unfold Gemini.analyzeMathProblem.
  destruct (truthy_opt key); cbn [negb]; [|reflexivity].
  cbn [bind await exec]. fold (analysisRequest key imageBuffer mimeType).
  destruct (remote _) as [e|response]; reflexivity.
Qed.

Lemma chatWithTutor_exec message history (w : World) :
  exec remote (Gemini.chatWithTutor key message history) w =
  if truthy_opt key
  then (issue (chatRequest key message history) w,
        textOf chatEmptyFallback (remote (chatRequest key message history)))
  else (w, inl missingKey).
Proof.
  unfold Gemini.chatWithTutor.
  destruct (truthy_opt key); cbn [negb]; [|reflexivity].
  cbn [bind await exec]. fold (chatRequest key message history).
  destruct (remote _) as [e|response]; reflexivity.
Qed.

Lemma analyzeMathProblem_answer (any : Type) imageBuffer mimeType
  (history : option (list any)) :
  answer remote (Gemini.analyzeMathProblem key imageBuffer mimeType history) =
  if truthy_opt key
  then textOf analysisEmptyFallback
              (remote (analysisRequest key imageBuffer mimeType))
  else inl missingKey.
Proof.
  rewrite <- (exec_answer remote _ initialWorld), analyzeMathProblem_exec.
  destruct (truthy_opt key); reflexivity.
Qed.

Lemma chatWithTutor_answer message history :
  answer remote (Gemini.chatWithTutor key message history) =
  if truthy_opt key
  then textOf chatEmptyFallback (remote (chatRequest key message history))
  else inl missingKey.
Proof.
  rewrite <- (exec_answer remote _ initialWorld), chatWithTutor_exec.
  destruct (truthy_opt key); reflexivity.
Qed.

End Client.

(** ** Claims about the model client *)

(** C7.  Without a credential ([GEMINI_API_KEY] undefined, or empty) both
    operations are the single statement [throw new Error("GEMINI_API_KEY is
    not set")]: run in any world they leave it as it was, so no request has
    been issued, and they complete with that error, not with a fallback
    text. *)
Theorem missing_credential_is_thrown
  (key : option jsstring) (remote : SDK.RemoteModel) (any : Type)
  (imageBuffer mimeType : jsstring) (h : option (list any))
  (message : jsstring) (history : list SDK.HistoryEntry) (w : World) :
  truthy_opt key = false ->
  Gemini.analyzeMathProblem key imageBuffer mimeType h = Throw missingKey
  /\ Gemini.chatWithTutor key message history = Throw missingKey
  /\ exec remote (Gemini.analyzeMathProblem key imageBuffer mimeType h) w
     = (w, inl missingKey)
  /\ exec remote (Gemini.chatWithTutor key message history) w
     = (w, inl missingKey).
Proof.
  intro K.
  rewrite analyzeMathProblem_exec, chatWithTutor_exec.
  unfold Gemini.analyzeMathProblem, Gemini.chatWithTutor.
  rewrite K. repeat split.
Qed.

Lemma missing_credential_is_thrown_witness :
  truthy_opt None = false
  /\ exec (replying (Some (js "x")))
          (Gemini.analyzeMathProblem None (any:=unit) sampleImage samplePng None)
          initialWorld
     = (initialWorld, inl missingKey)
  /\ exec (replying (Some (js "x")))
          (Gemini.chatWithTutor None (js "hi") []) initialWorld
     = (initialWorld, inl missingKey).
Proof.
  split; [reflexivity|].
  pose proof (@missing_credential_is_thrown None (replying (Some (js "x")))
                unit sampleImage samplePng None (js "hi") [] initialWorld
                eq_refl) as [_ [_ [A C]]].
  split; [exact A | exact C].
Defined.

(** C8.  With a credential, when the remote call resolves with no text
    ([response.text] undefined or the empty string), each operation returns
    its own fixed text instead of throwing, and the two texts differ. *)
Theorem empty_response_is_replaced
  (key : option jsstring) (remote : SDK.RemoteModel) (any : Type)
  (imageBuffer mimeType : jsstring) (h : option (list any))
  (message : jsstring) (history : list SDK.HistoryEntry)
  (t1 t2 : option jsstring) :
  truthy_opt key = true ->
  remote (analysisRequest key imageBuffer mimeType)
    = inr {| SDK.response_text := t1 |} ->
  remote (chatRequest key message history)
    = inr {| SDK.response_text := t2 |} ->
  truthy_opt t1 = false ->
  truthy_opt t2 = false ->
  answer remote (Gemini.analyzeMathProblem key imageBuffer mimeType h)
    = inr (js "I'm sorry, I couldn't analyze the image. Could you try again?")
  /\ answer remote (Gemini.chatWithTutor key message history)
    = inr (js "I'm having trouble thinking right now. Let's try that again.")
  /\ js "I'm sorry, I couldn't analyze the image. Could you try again?"
     <> js "I'm having trouble thinking right now. Let's try that again.".
Proof.
  intros K R1 R2 E1 E2.
  rewrite analyzeMathProblem_answer, chatWithTutor_answer, K, R1, R2.
  repeat split.
  - destruct t1 as [[|c r]|]; simpl in *; try discriminate; reflexivity.
  - destruct t2 as [[|c r]|]; simpl in *; try discriminate; reflexivity.
  - discriminate.
Qed.

Lemma empty_response_is_replaced_witness :
  answer (replying (Some []))
         (Gemini.analyzeMathProblem sampleKey (any:=unit) sampleImage samplePng None)
    = inr analysisEmptyFallback
  /\ answer (replying (Some [])) (Gemini.chatWithTutor sampleKey (js "hi") [])
    = inr chatEmptyFallback
  /\ analysisEmptyFallback <> chatEmptyFallback.
Proof.
  exact (@empty_response_is_replaced sampleKey (replying (Some [])) unit
           sampleImage samplePng None (js "hi") [] (Some []) (Some [])
           eq_refl eq_refl eq_refl eq_refl eq_refl).
Defined.

(** C9.  [analyzeMathProblem] does not look at [history]: called with any
    two histories (of any element types) it is the same program, and run
    with a credential it issues exactly one request, made of the image, its
    MIME type, the fixed prompt and the fixed system instruction. *)
Theorem analyzeMathProblem_ignores_history
  (key : option jsstring) (any1 any2 : Type)
  (imageBuffer mimeType : jsstring)
  (h1 : option (list any1)) (h2 : option (list any2)) :
  Gemini.analyzeMathProblem key imageBuffer mimeType h1
  = Gemini.analyzeMathProblem key imageBuffer mimeType h2
  /\ forall (remote : SDK.RemoteModel) (w : World),
       exec remote (Gemini.analyzeMathProblem key imageBuffer mimeType h1) w
       = if truthy_opt key
         then
           let request :=
             SDK.generateContent {| SDK.apiKey := Gemini.narrowed key |}
               {| SDK.gc_model := js "gemini-3.1-pro-preview";
                  SDK.contents :=
                    [ SDK.content
                        [ SDK.inlineData {| SDK.data := imageBuffer;
                                            SDK.mimeType := mimeType |};
                          SDK.text (js "Please analyze this math problem and guide me through the first step using the Socratic method.") ] ];
                  SDK.gc_config :=
                    {| SDK.systemInstruction := Gemini.SYSTEM_INSTRUCTION;
                       SDK.thinkingConfig :=
                         {| SDK.thinkingLevel := SDK.HIGH |} |} |} in
           (issue request w, textOf analysisEmptyFallback (remote request))
         else (w, inl missingKey).
Proof.
  split; [reflexivity|].
  intros remote w. apply analyzeMathProblem_exec.
Qed.

(** ** The handlers, run to completion *)

Section Handlers.

Variable key : option jsstring.
Variable remote : SDK.RemoteModel.

Lemma startInitialAnalysis_exec (image type : jsstring) (w : World) :
  let r := answer remote
             (Gemini.analyzeMathProblem key (any:=unit) image type None) in
  exec remote (App.startInitialAnalysis key image type) w =
  ({| state :=
        {| messages := [imageTurn image type] ++ [closingTurn analysisApology r];
           input := input (state w);
           isLoading := false;
           selectedImage := selectedImage (state w);
           mimeType := mimeType (state w) |};
      calls := if truthy_opt key
               then calls w ++ [analysisRequest key image type]
               else calls w;
      console := logged r (console w) |},
   inr tt).
Proof.
  cbv zeta. rewrite analyzeMathProblem_answer.
  unfold App.startInitialAnalysis, Gemini.analyzeMathProblem.
  destruct (truthy_opt key); cbn [negb]; [|reflexivity].
  cbn [bind act await tryCatch tryFinally exec].
  fold (analysisRequest key image type).
  destruct (remote _) as [e|response]; reflexivity.
Qed.

Lemma handleSendMessage_exec (w : World) :
  let snap := state w in
  let history := map remoteHistoryEntry (messages snap) in
  let r := answer remote (Gemini.chatWithTutor key (input snap) history) in
  exec remote (App.handleSendMessage key snap) w =
  if blank (input snap) || isLoading snap then (w, inr tt)
  else
    ({| state :=
          {| messages :=
               (messages snap ++ [userTurn (input snap)])
               ++ [closingTurn chatApology r];
             input := [];
             isLoading := false;
             selectedImage := selectedImage snap;
             mimeType := mimeType snap |};
        calls := if truthy_opt key
                 then calls w ++ [chatRequest key (input snap) history]
                 else calls w;
        console := logged r (console w) |},
     inr tt).
Proof.
  cbv zeta. rewrite chatWithTutor_answer.
  unfold App.handleSendMessage. rewrite not_trim_blank.
  destruct (blank (input (state w)) || isLoading (state w)); [reflexivity|].
  unfold Gemini.chatWithTutor.
  destruct (truthy_opt key); cbn [negb]; [|reflexivity].
  cbn [bind act await tryCatch tryFinally exec].
  change (map _ (messages (state w)))
    with (map remoteHistoryEntry (messages (state w))).
  fold (chatRequest key (input (state w))
          (map remoteHistoryEntry (messages (state w)))).
  destruct (remote _) as [e|response]; reflexivity.
Qed.

Lemma resetTutor_exec (w : World) :
  exec remote App.resetTutor w =
  ({| state :=
        {| messages := []; input := []; isLoading := isLoading (state w);
           selectedImage := None; mimeType := None |};
      calls := calls w;
      console := console w |},
   inr tt).
Proof. reflexivity. Qed.

End Handlers.

(** ** Claims about the conversation component *)

Lemma handleSendMessage_rejected_iff
  (key : option jsstring) (remote : SDK.RemoteModel) (w : World) :
  exec remote (App.handleSendMessage key (state w)) w = (w, inr tt)
  <-> blank (input (state w)) = true \/ isLoading (state w) = true.
Proof.
  rewrite handleSendMessage_exec. cbv zeta.
  destruct (blank (input (state w))) eqn:B; simpl.
  - split; auto.
  - destruct (isLoading (state w)); simpl.
    + split; auto.
    + split.
      * intro E. exfalso.
        assert (I : input (state w) = []).
        { symmetry. apply (f_equal (fun x => input (state (fst x)))) in E.
          exact E. }
        rewrite I in B. discriminate.
      * intros [H|H]; discriminate.
Qed.

(** C2, the claim on a conversation that already has a message: the
    analysis succeeds, yet the transcript afterwards has 2 messages, not
    1 + 2, and the earlier message is gone. *)
Lemma startInitialAnalysis_drops_earlier_messages :
  let w := worldWith [userTurn (js "earlier")] [] false in
  let remote := replying (Some (js "Let's start")) in
  let w' := fst (exec remote
                   (App.startInitialAnalysis sampleKey sampleImage samplePng) w) in
  answer remote
    (Gemini.analyzeMathProblem sampleKey (any:=unit) sampleImage samplePng None)
    = inr (js "Let's start")
  /\ messages (state w')
     = [imageTurn sampleImage samplePng; modelTurn (js "Let's start")]
  /\ ~ (exists m1 m2, messages (state w') = messages (state w) ++ [m1; m2])
  /\ ~ In (userTurn (js "earlier")) (messages (state w')).
Proof.
  cbv zeta. split; [reflexivity|]. split; [reflexivity|]. split.
  - intros [m1 [m2 E]]. discriminate E.
  - intros [E|[E|[]]]; discriminate E.
Qed.

(** C2, as the code has it.  After a successful [startInitialAnalysis] the
    transcript is exactly two messages: the user turn carrying the image
    as a data URI, then the model turn with the returned text and no
    image.  Whatever the transcript held before is replaced; on an empty
    transcript this is the same as appending the two messages.  The
    in-flight flag is cleared and nothing is thrown. *)
Theorem startInitialAnalysis_success
  (key : option jsstring) (remote : SDK.RemoteModel)
  (img type response : jsstring) (w : World) :
  answer remote (Gemini.analyzeMathProblem key (any:=unit) img type None)
    = inr response ->
  let r := exec remote (App.startInitialAnalysis key img type) w in
  messages (state (fst r))
  = [ {| role := user;
         content := js "I've uploaded a math problem. Can you help me?";
         image := Some (js "data:" ++ type ++ js ";base64," ++ img) |};
      {| role := model; content := response; image := None |} ]
  /\ (messages (state w) = [] ->
      exists m1 m2,
        messages (state (fst r)) = messages (state w) ++ [m1; m2]
        /\ role m1 = user /\ image m1 <> None
        /\ role m2 = model /\ image m2 = None)
  /\ isLoading (state (fst r)) = false
  /\ snd r = inr tt.
Proof.
  intro S. cbv zeta. rewrite startInitialAnalysis_exec. cbv zeta.
  rewrite S. cbn [fst snd state messages isLoading closingTurn].
  split; [reflexivity|]. split; [|split; reflexivity].
  intro E. rewrite E.
  exists (imageTurn img type), (modelTurn response).
  repeat split. discriminate.
Qed.

Lemma startInitialAnalysis_success_witness :
  messages (state (fst (exec (replying (Some (js "Let's start")))
                          (App.startInitialAnalysis sampleKey sampleImage samplePng)
                          initialWorld)))
  = [imageTurn sampleImage samplePng; modelTurn (js "Let's start")].
Proof.
  apply (@startInitialAnalysis_success sampleKey
           (replying (Some (js "Let's start"))) sampleImage samplePng
           (js "Let's start") initialWorld eq_refl).
Defined.

(** C3.  When [handleSendMessage] goes through, the history it hands to
    [chatWithTutor] projects, message by message, the transcript as it was
    before the new user turn: with a credential exactly one request is
    issued, a chat created with that history followed by the new text (and
    without one no request is issued at all).  The transcript afterwards is
    the old one, the new user turn and one model turn.  The projection
    keeps the role and the content and does not depend on the image. *)
Theorem handleSendMessage_history
  (key : option jsstring) (remote : SDK.RemoteModel) (w : World) :
  blank (input (state w)) = false ->
  isLoading (state w) = false ->
  let w' := fst (exec remote (App.handleSendMessage key (state w)) w) in
  calls w'
  = (if truthy_opt key
     then
       calls w ++
       [ SDK.sendMessage {| SDK.apiKey := Gemini.narrowed key |}
           {| SDK.chat_model := js "gemini-3.1-pro-preview";
              SDK.chat_config := tutorConfig;
              SDK.history := map remoteHistoryEntry (messages (state w)) |}
           (input (state w)) ]
     else calls w)
  /\ (exists reply,
        messages (state w')
        = messages (state w) ++ [userTurn (input (state w)); reply])
  /\ (forall m i,
        remoteHistoryEntry {| role := role m; content := content m; image := i |}
        = remoteHistoryEntry m)
  /\ map remoteHistoryEntry
       [ {| role := user; content := js "a"; image := None |};
         {| role := model; content := js "b"; image := None |} ]
     = [ {| SDK.role := user; SDK.parts := [ {| SDK.part_text := js "a" |} ] |};
         {| SDK.role := model; SDK.parts := [ {| SDK.part_text := js "b" |} ] |} ].
Proof.
  intros B L. cbv zeta. rewrite handleSendMessage_exec. cbv zeta.
  rewrite B, L. cbn [orb fst calls state messages].
  split; [reflexivity|]. split; [|split; [reflexivity|reflexivity]].
  eexists. rewrite <- app_assoc. reflexivity.
Qed.

Lemma handleSendMessage_history_witness :
  calls (fst (exec (replying (Some (js "c")))
                (App.handleSendMessage sampleKey
                   (state (worldWith [userTurn (js "a"); modelTurn (js "b")]
                                     (js "why?") false)))
                (worldWith [userTurn (js "a"); modelTurn (js "b")]
                           (js "why?") false)))
  = [ chatRequest sampleKey (js "why?")
        [ {| SDK.role := user; SDK.parts := [ {| SDK.part_text := js "a" |} ] |};
          {| SDK.role := model; SDK.parts := [ {| SDK.part_text := js "b" |} ] |} ] ].
Proof.
  apply (@handleSendMessage_history sampleKey (replying (Some (js "c")))
           (worldWith [userTurn (js "a"); modelTurn (js "b")] (js "why?") false)
           eq_refl eq_refl).
Defined.

(** C4.  When the client throws, the handler catches it: the exchange ends
    with a model turn whose content is the apology of that handler, a
    fixed text, one for the analysis and another for the chat.  No handler
    ever completes with an error, whatever the remote model does. *)
Theorem remote_failure_is_absorbed
  (key : option jsstring) (remote : SDK.RemoteModel) (w : World) :
  (forall img type e,
     answer remote (Gemini.analyzeMathProblem key (any:=unit) img type None)
       = inl e ->
     messages (state (fst (exec remote (App.startInitialAnalysis key img type) w)))
     = [ imageTurn img type;
         {| role := model;
            content := js "I'm sorry, I had trouble seeing that image. Could you try uploading it again?";
            image := None |} ])
  /\ (forall e,
        blank (input (state w)) = false ->
        isLoading (state w) = false ->
        answer remote
          (Gemini.chatWithTutor key (input (state w))
             (map remoteHistoryEntry (messages (state w)))) = inl e ->
        messages (state (fst (exec remote (App.handleSendMessage key (state w)) w)))
        = messages (state w) ++
          [ userTurn (input (state w));
            {| role := model;
               content := js "I'm sorry, my thoughts are a bit scattered. Could you repeat that?";
               image := None |} ])
  /\ (forall img type,
        snd (exec remote (App.startInitialAnalysis key img type) w) = inr tt)
  /\ (forall b t, snd (exec remote (App.onloadend key b t) w) = inr tt)
  /\ snd (exec remote (App.handleSendMessage key (state w)) w) = inr tt
  /\ snd (exec remote App.resetTutor w) = inr tt
  /\ analysisApology <> chatApology.
Proof.
  repeat split.
  - intros img type e F. rewrite startInitialAnalysis_exec. cbv zeta.
    rewrite F. reflexivity.
  - intros e B L F. rewrite handleSendMessage_exec. cbv zeta.
    rewrite B, L, F. cbn [orb fst state messages closingTurn].
    rewrite <- app_assoc. reflexivity.
  - intros img type. rewrite startInitialAnalysis_exec. reflexivity.
  - intros b t. unfold App.onloadend, act. cbn [bind exec].
    rewrite startInitialAnalysis_exec. reflexivity.
  - rewrite handleSendMessage_exec. cbv zeta.
    destruct (blank _ || isLoading _); reflexivity.
  - discriminate.
Qed.

Lemma remote_failure_is_absorbed_witness :
  messages (state (fst (exec rejecting
                          (App.startInitialAnalysis sampleKey sampleImage samplePng)
                          initialWorld)))
  = [imageTurn sampleImage samplePng; modelTurn analysisApology]
  /\ messages (state (fst (exec rejecting
                (App.handleSendMessage sampleKey
                   (state (worldWith [modelTurn (js "b")] (js "why?") false)))
                (worldWith [modelTurn (js "b")] (js "why?") false))))
     = [modelTurn (js "b"); userTurn (js "why?"); modelTurn chatApology].
Proof.
  split.
  - pose proof (@remote_failure_is_absorbed sampleKey rejecting initialWorld)
      as [H _].
    apply (H sampleImage samplePng (SDK.JsError (js "fetch failed")) eq_refl).
  - pose proof (@remote_failure_is_absorbed sampleKey rejecting
                  (worldWith [modelTurn (js "b")] (js "why?") false))
      as [_ [H _]].
    apply (H (SDK.JsError (js "fetch failed")) eq_refl eq_refl eq_refl).
Defined.

(** C5.  [resetTutor], in any state, in flight or not: the transcript is
    empty afterwards, the selected image and its MIME type are cleared (and
    so is the text field).  The in-flight flag and the outstanding requests
    are left as they are. *)
Theorem resetTutor_clears
  (key : option jsstring) (remote : SDK.RemoteModel) (s : App.Page) :
  let w' := fst (exec remote App.resetTutor (App.world s)) in
  messages (state w') = []
  /\ List.length (messages (state w')) = 0
  /\ selectedImage (state w') = None
  /\ mimeType (state w') = None
  /\ input (state w') = []
  /\ isLoading (state w') = isLoading (state (App.world s))
  /\ calls w' = calls (App.world s)
  /\ App.dispatch key App.Reset s = App.mkPage w' (App.pending s).
Proof. repeat split. Qed.

(** C10.  When [chatWithTutor] throws, the user turn that
    [handleSendMessage] appended before the call stays: the transcript ends
    up two messages longer, the user's text and then the apology. *)
Theorem failed_exchange_is_kept
  (key : option jsstring) (remote : SDK.RemoteModel) (w : World)
  (e : SDK.Error) :
  blank (input (state w)) = false ->
  isLoading (state w) = false ->
  answer remote
    (Gemini.chatWithTutor key (input (state w))
       (map remoteHistoryEntry (messages (state w)))) = inl e ->
  let w' := fst (exec remote (App.handleSendMessage key (state w)) w) in
  messages (state w')
  = messages (state w) ++
    [ {| role := user; content := input (state w); image := None |};
      {| role := model;
         content := js "I'm sorry, my thoughts are a bit scattered. Could you repeat that?";
         image := None |} ]
  /\ List.length (messages (state w')) = List.length (messages (state w)) + 2
  /\ messages (state w') <> messages (state w).
Proof.
  intros B L F. cbv zeta. rewrite handleSendMessage_exec. cbv zeta.
  rewrite B, L, F. cbn [orb fst state messages closingTurn].
  rewrite <- app_assoc. cbn [List.app]. split; [reflexivity|]. split.
  - rewrite length_app. reflexivity.
  - intro E. apply (f_equal (@List.length Message)) in E.
    rewrite length_app in E. cbn [List.length] in E. lia.
Qed.

Lemma failed_exchange_is_kept_witness :
  messages (state (fst (exec rejecting
              (App.handleSendMessage sampleKey
                 (state (worldWith [imageTurn sampleImage samplePng;
                                    modelTurn (js "b")] (js "why?") false)))
              (worldWith [imageTurn sampleImage samplePng; modelTurn (js "b")]
                         (js "why?") false))))
  = [ imageTurn sampleImage samplePng; modelTurn (js "b");
      userTurn (js "why?"); modelTurn chatApology ].
Proof.
  apply (@failed_exchange_is_kept sampleKey rejecting
           (worldWith [imageTurn sampleImage samplePng; modelTurn (js "b")]
                      (js "why?") false)
           (SDK.JsError (js "fetch failed")) eq_refl eq_refl eq_refl).
Defined.

(** ** The transcript over a session *)

Section AppendingPrograms.

Lemma Appending_bind {A B} (p : Prog A) (f : A -> Prog B) :
  Appending p -> (forall a, Appending (f a)) -> Appending (bind p f).
Proof.
  intros P F. induction P; cbn [bind]; auto; constructor; auto.
Qed.

Lemma Appending_tryCatch {A} (p : Prog A) (h : SDK.Error -> Prog A) :
  Appending p -> (forall e, Appending (h e)) -> Appending (tryCatch p h).
Proof.
  intros P H. induction P; cbn [tryCatch]; auto; constructor; auto.
Qed.

Lemma Appending_tryFinally {A} (p : Prog A) (f : Prog unit) :
  Appending p -> Appending f -> Appending (tryFinally p f).
Proof.
  intros P F. induction P; cbn [tryFinally];
    try (apply Appending_bind; [exact F | intro; constructor]);
    constructor; auto.
Qed.

Lemma Appending_act (a : Action) : extending a -> Appending (act a).
Proof. intro E. unfold act. repeat constructor. exact E. Qed.

Lemma Appending_await (c : SDK.RemoteCall) : Appending (await c).
Proof. unfold await. constructor. intros [e|v]; constructor. Qed.

Lemma extending_push (m : Message) :
  extending (SetMessages (fun prev => prev ++ [m])).
Proof. intro prev. exists [m]. reflexivity. Qed.

Variable key : option jsstring.

Lemma analyzeMathProblem_Appending (any : Type) img type
  (h : option (list any)) :
  Appending (Gemini.analyzeMathProblem key img type h).
Proof.
  unfold Gemini.analyzeMathProblem.
  destruct (negb (truthy_opt key)); [constructor|].
  apply Appending_bind; [apply Appending_await | intro; constructor].
Qed.

Lemma chatWithTutor_Appending message history :
  Appending (Gemini.chatWithTutor key message history).
Proof.
  unfold Gemini.chatWithTutor.
  destruct (negb (truthy_opt key)); [constructor|].
  apply Appending_bind; [apply Appending_await | intro; constructor].
Qed.

(** An exchange: the call, the reply or the apology, the flag cleared. *)
Lemma exchange_Appending (call : Prog jsstring) (apology : jsstring) :
  Appending call ->
  Appending
    (tryFinally
       (tryCatch
          (bind call (fun response =>
             act (SetMessages (fun prev =>
               prev ++ [ {| role := model; content := response;
                            image := None |} ]))))
          (fun error =>
             bind (act (ConsoleError error)) (fun _ =>
               act (SetMessages (fun prev =>
                 prev ++ [ {| role := model; content := apology;
                              image := None |} ])))))
       (act (SetIsLoading false))).
Proof.
  intro C.
  apply Appending_tryFinally; [|apply Appending_act; exact I].
  apply Appending_tryCatch.
  - apply Appending_bind; [exact C|].
    intro response. apply Appending_act, extending_push.
  - intro error. apply Appending_bind; [apply Appending_act; exact I|].
    intros _. apply Appending_act, extending_push.
Qed.

Lemma handleSendMessage_Appending (snap : AppState) :
  Appending (App.handleSendMessage key snap).
Proof.
  unfold App.handleSendMessage.
  destruct (negb (truthy (trim (input snap))) || isLoading snap);
    [constructor|].
  apply Appending_bind; [apply Appending_act; exact I|]. intros _.
  apply Appending_bind; [apply Appending_act, extending_push|]. intros _.
  apply Appending_bind; [apply Appending_act; exact I|]. intros _.
  apply exchange_Appending, chatWithTutor_Appending.
Qed.

Lemma onSubmit_Appending (snap : AppState) :
  Appending (App.onSubmit key snap).
Proof.
  unfold App.onSubmit. destruct (App.sendDisabled snap);
    [constructor | apply handleSendMessage_Appending].
Qed.

Lemma onChange_Appending (snap : AppState) (value : jsstring) :
  Appending (App.onChange snap value).
Proof.
  unfold App.onChange. destruct (App.inputDisabled snap);
    [constructor | apply Appending_act; exact I].
Qed.

Lemma perform_extending (a : Action) (w : World) :
  extending a ->
  exists suffix, messages (state (perform a w)) = messages (state w) ++ suffix.
Proof.
  destruct a; cbn; intro E;
    try (exists []; rewrite app_nil_r; reflexivity).
  apply E.
Qed.

(** Running an appending program extends the transcript and leaves an
    appending continuation behind. *)
Lemma run_Appending (p : Prog unit) (w : World) others :
  Appending p -> appendingOnly others ->
  (exists suffix,
     App.transcript (App.run p w others) = messages (state w) ++ suffix)
  /\ appendingOnly (App.pending (App.run p w others)).
Proof.
  intros P O. revert w.
  induction P as [a|e|a k E P IH|c k K IH]; intro w.
  - split; [exists []; cbn; rewrite app_nil_r; reflexivity | exact O].
  - split; [exists []; cbn; rewrite app_nil_r; reflexivity | exact O].
  - change (App.run (Act a k) w others) with (App.run k (perform a w) others).
    destruct (@perform_extending a w E) as [s1 E1].
    destruct (IH (perform a w)) as [[s2 E2] I2].
    split; [|exact I2].
    exists (s1 ++ s2). rewrite E2, E1, app_assoc. reflexivity.
  - split; [exists []; cbn; rewrite app_nil_r; reflexivity|].
    cbn. apply Forall_app. split; [exact O|].
    constructor; [exact K|constructor].
Qed.

Lemma remove_nth_appendingOnly (i : nat) ks :
  appendingOnly ks -> appendingOnly (App.remove_nth i ks).
Proof.
  intro F. revert i. induction F as [|k ks K F IH]; intro i.
  - destruct i; constructor.
  - destruct i; cbn [App.remove_nth]; [exact F|].
    constructor; [exact K | apply IH].
Qed.

Lemma nth_error_appendingOnly (i : nat) ks k :
  appendingOnly ks -> nth_error ks i = Some k -> forall r, Appending (k r).
Proof.
  intros F N. apply nth_error_In in N.
  unfold appendingOnly in F. rewrite Forall_forall in F. apply F, N.
Qed.

(** The part of [startInitialAnalysis] after the transcript is replaced. *)
Lemma onloadend_run (b t : jsstring) (w : World) others :
  exists w1,
    messages (state w1) = [imageTurn b t]
    /\ exists p, Appending p
       /\ App.run (App.onloadend key b t) w others = App.run p w1 others.
Proof.
  eexists. split; [|eexists; split].
  3: { unfold App.onloadend, App.startInitialAnalysis, App.run.
       cbn [bind act start]. reflexivity. }
  - reflexivity.
  - apply exchange_Appending, analyzeMathProblem_Appending.
Qed.

(** Every event keeps the continuations appending. *)
Lemma dispatch_appendingOnly (ev : App.Event) (s : App.Page) :
  appendingOnly (App.pending s) ->
  appendingOnly (App.pending (App.dispatch key ev s)).
Proof.
  intro O. destruct ev as [value| | |b t|i r]; cbn [App.dispatch].
  - apply run_Appending; [apply onChange_Appending | exact O].
  - apply run_Appending; [apply onSubmit_Appending | exact O].
  - exact O.
  - destruct (onloadend_run b t (App.world s) (App.pending s))
      as [w1 [_ [p [P E]]]].
    rewrite E. apply run_Appending; [exact P | exact O].
  - destruct (nth_error (App.pending s) i) as [k|] eqn:N; [|exact O].
    apply run_Appending.
    + apply (nth_error_appendingOnly i O N).
    + apply remove_nth_appendingOnly, O.
Qed.

Lemma reachable_appendingOnly (s : App.Page) :
  App.reachable key s -> appendingOnly (App.pending s).
Proof.
  induction 1 as [|ev s R IH]; [constructor|].
  apply dispatch_appendingOnly, IH.
Qed.

Lemma session_reachable (evs : list App.Event) (s : App.Page) :
  App.reachable key s -> App.reachable key (App.session key evs s).
Proof.
  revert s. induction evs as [|ev evs IH]; intros s R; [exact R|].
  apply IH. constructor. exact R.
Qed.

End AppendingPrograms.

(** C6, the claim on a session with two uploads: once the first exchange
    is over, a second image does not extend the transcript; the two
    messages of the first exchange are dropped and the new image turn
    stands alone. *)
Lemma second_upload_replaces_transcript :
  let s := App.session sampleKey
             [ App.Loaded sampleImage samplePng;
               App.Settle 0 (inr {| SDK.response_text := Some (js "Let's start") |}) ]
             App.initialPage in
  let s' := App.dispatch sampleKey (App.Loaded (js "R0lGODlh") (js "image/gif")) s in
  App.reachable sampleKey s
  /\ App.transcript s
     = [imageTurn sampleImage samplePng; modelTurn (js "Let's start")]
  /\ App.transcript s' = [imageTurn (js "R0lGODlh") (js "image/gif")]
  /\ ~ (exists suffix, App.transcript s' = App.transcript s ++ suffix).
Proof.
  cbv zeta. split; [apply session_reachable; constructor|].
  split; [reflexivity|]. split; [reflexivity|].
  intros [suffix E]. discriminate E.
Qed.

(** C6, as the code has it.  In a session, an edit of the text field, a
    submit and the settling of an outstanding request only extend the
    transcript: what was there stays, unchanged and in place, as a prefix.
    Two events replace the transcript as a whole: the reset empties it, and
    a loaded image starts it again with the image turn (followed at once
    by the apology when there is no credential). *)
Theorem transcript_over_a_session
  (key : option jsstring) (s : App.Page) (ev : App.Event) :
  App.reachable key s ->
  match ev with
  | App.Reset => App.transcript (App.dispatch key ev s) = []
  | App.Loaded base64String fileType =>
      App.transcript (App.dispatch key ev s)
      = imageTurn base64String fileType
        :: (if truthy_opt key then [] else [modelTurn analysisApology])
  | App.Change _ | App.Submit | App.Settle _ _ =>
      exists suffix,
        App.transcript (App.dispatch key ev s) = App.transcript s ++ suffix
  end.
Proof.
  intro R. pose proof (reachable_appendingOnly R) as O.
  destruct ev as [value| | |b t|i r]; cbn [App.dispatch].
  - apply run_Appending; [apply onChange_Appending | exact O].
  - apply run_Appending; [apply onSubmit_Appending | exact O].
  - reflexivity.
  - unfold App.onloadend, App.startInitialAnalysis,
      Gemini.analyzeMathProblem, App.run.
    destruct (truthy_opt key); reflexivity.
  - destruct (nth_error (App.pending s) i) as [k|] eqn:N.
    + apply run_Appending.
      * apply (nth_error_appendingOnly i O N).
      * apply remove_nth_appendingOnly, O.
    + exists []. rewrite app_nil_r. reflexivity.
Qed.

Lemma transcript_over_a_session_witness :
  exists suffix,
    App.transcript
      (App.dispatch sampleKey
         (App.Settle 0 (inr {| SDK.response_text := Some (js "Let's start") |}))
         (App.dispatch sampleKey (App.Loaded sampleImage samplePng)
            App.initialPage))
    = App.transcript
        (App.dispatch sampleKey (App.Loaded sampleImage samplePng)
           App.initialPage)
      ++ suffix.
Proof.
  apply (@transcript_over_a_session sampleKey
           (App.dispatch sampleKey (App.Loaded sampleImage samplePng)
              App.initialPage)
           (App.Settle 0 (inr {| SDK.response_text := Some (js "Let's start") |}))).
  apply App.reachable_dispatch, App.reachable_initial.
Defined.

(** ** Scenarios *)

(** The scenario of the specification: an image is loaded and the request
    resolves. *)
Example scenario_image_then_reply :
  App.transcript
    (App.session sampleKey
       [ App.Loaded sampleImage (js "image/jpeg");
         App.Settle 0 (inr {| SDK.response_text :=
                                Some (js "Let's start by identifying the function...") |}) ]
       App.initialPage)
  = [ imageTurn sampleImage (js "image/jpeg");
      modelTurn (js "Let's start by identifying the function...") ].
Proof. reflexivity. Qed.

(** A reset while the analysis is in flight does not cancel it: the reply
    lands in the emptied transcript, which then has no image turn, and the
    form accepts a text. *)
Example scenario_reset_in_flight :
  let s := App.session sampleKey
             [ App.Loaded sampleImage samplePng;
               App.Reset;
               App.Settle 0 (inr {| SDK.response_text := Some (js "late") |}) ]
             App.initialPage in
  App.transcript s = [modelTurn (js "late")]
  /\ hasImageTurn (App.transcript s) = false
  /\ App.transcript
       (App.session sampleKey
          [ App.Change (js "hi"); App.Submit;
            App.Settle 0 (inr {| SDK.response_text := Some (js "Hello") |}) ] s)
     = [modelTurn (js "late"); userTurn (js "hi"); modelTurn (js "Hello")].
Proof. repeat split. Qed.

(** Dispatching an event and settling its request at once is running the
    handler to completion. *)
Lemma run_then_settle (remote : SDK.RemoteModel) (p : Prog unit) (w : World) :
  match start p w with
  | (w1, Finished r) => exec remote p w = (w1, r)
  | (w1, Waiting c k) => exec remote p w = exec remote (k (remote c)) w1
  end.
Proof.
  rewrite (exec_start remote p w). destruct (start p w) as [w1 [r|c k]];
    reflexivity.
Qed.

(* ================================================================= *)
(** * Further properties of the component *)

(** ** One event at a time *)

Section Steps.

Variable key : option jsstring.

Lemma sendDisabled_false (snap : AppState) :
  App.sendDisabled snap = false ->
  blank (input snap) = false /\ isLoading snap = false /\ messages snap <> [].
Proof.
  unfold App.sendDisabled. rewrite not_trim_blank.
  destruct (blank (input snap)); [discriminate|].
  destruct (isLoading snap); [discriminate|].
  destruct (messages snap); [discriminate|].
  intros _. repeat split. discriminate.
Qed.

Lemma handleSendMessage_start (w : World) :
  blank (input (state w)) = false ->
  isLoading (state w) = false ->
  if truthy_opt key
  then exists k,
         start (App.handleSendMessage key (state w)) w
         = (chatOpened key w,
            Waiting (chatRequest key (input (state w))
                       (map remoteHistoryEntry (messages (state w)))) k)
         /\ settles Chat k
  else start (App.handleSendMessage key (state w)) w
       = (chatRefused w, Finished (inr tt)).
Proof.
  intros B L. unfold App.handleSendMessage, Gemini.chatWithTutor.
  rewrite not_trim_blank, B, L.
  destruct (truthy_opt key); cbn [orb negb]; [|reflexivity].
  cbn [bind act await tryCatch tryFinally start].
  eexists. split; [reflexivity|].
  intros [e|v] w'; reflexivity.
Qed.

Lemma onloadend_start (b t : jsstring) (w : World) :
  if truthy_opt key
  then exists k,
         start (App.onloadend key b t) w
         = (analysisOpened key b t w, Waiting (analysisRequest key b t) k)
         /\ settles Analysis k
  else start (App.onloadend key b t) w
       = (analysisRefused b t w, Finished (inr tt)).
Proof.
  unfold App.onloadend, App.startInitialAnalysis, Gemini.analyzeMathProblem.
  destruct (truthy_opt key); cbn [negb]; [|reflexivity].
  cbn [bind act await tryCatch tryFinally start].
  eexists. split; [reflexivity|].
  intros [e|v] w'; reflexivity.
Qed.

(** [dispatch] takes the steps of [Step], as long as the continuations on
    the page are those of exchanges. *)
Lemma dispatch_Step (w : World) ks (ev : App.Event) :
  Forall exchangeContinuation ks ->
  Step key (App.mkPage w ks) ev (App.dispatch key ev (App.mkPage w ks)).
Proof.
  intro F. destruct ev as [v| | |b t|i r];
    cbn [App.dispatch App.world App.pending].
  - unfold App.onChange.
    destruct (App.inputDisabled (state w)) eqn:D.
    + apply Step_change_disabled, D.
    + apply Step_change, D.
  - unfold App.onSubmit.
    destruct (App.sendDisabled (state w)) eqn:D.
    + apply Step_submit_disabled, D.
    + destruct (sendDisabled_false _ D) as [B [L _]].
      pose proof (handleSendMessage_start w B L) as S.
      unfold App.run.
      destruct (truthy_opt key) eqn:K.
      * destruct S as [k [S1 S2]]. rewrite S1.
        apply Step_submit_sent; assumption.
      * rewrite S. apply Step_submit_refused; assumption.
  - apply Step_reset.
  - pose proof (onloadend_start b t w) as S.
    unfold App.run.
    destruct (truthy_opt key) eqn:K.
    + destruct S as [k [S1 S2]]. rewrite S1.
      apply Step_loaded_sent; assumption.
    + rewrite S. apply Step_loaded_refused; assumption.
  - destruct (nth_error ks i) as [k|] eqn:N.
    + assert (X : exchangeContinuation k).
      { rewrite Forall_forall in F. apply F. eapply nth_error_In, N. }
      destruct X as [x X]. unfold App.run. rewrite X.
      eapply Step_settle; eassumption.
    + apply Step_settle_unknown, N.
Qed.

Lemma remove_nth_Forall {A} (P : A -> Prop) (i : nat) (l : list A) :
  Forall P l -> Forall P (App.remove_nth i l).
Proof.
  intro F. revert i. induction F as [|x l Px F IH]; intro i.
  - destruct i; constructor.
  - destruct i; cbn [App.remove_nth]; [exact F|].
    constructor; [exact Px | apply IH].
Qed.

Lemma Step_exchangeContinuation s ev s' :
  Step key s ev s' ->
  Forall exchangeContinuation (App.pending s) ->
  Forall exchangeContinuation (App.pending s').
Proof.
  intros S F. destruct S; cbn [App.pending] in *; auto.
  - apply Forall_app. split; [exact F|].
    constructor; [exists Chat; assumption | constructor].
  - apply Forall_app. split; [exact F|].
    constructor; [exists Analysis; assumption | constructor].
  - apply remove_nth_Forall, F.
Qed.

Lemma reachable_exchangeContinuation (s : App.Page) :
  App.reachable key s -> Forall exchangeContinuation (App.pending s).
Proof.
  induction 1 as [|ev s R IH]; [constructor|].
  destruct s as [w ks].
  eapply Step_exchangeContinuation; [apply dispatch_Step, IH | exact IH].
Qed.

Lemma reachable_Step (s : App.Page) (ev : App.Event) :
  App.reachable key s -> Step key s ev (App.dispatch key ev s).
Proof.
  intro R. pose proof (reachable_exchangeContinuation R) as F.
  destruct s as [w ks]. apply dispatch_Step, F.
Qed.

(** What holds of the first page and is kept by every step holds in every
    session. *)
Lemma reachable_invariant (P : App.Page -> Prop) :
  P App.initialPage ->
  (forall s ev s', P s -> Step key s ev s' -> P s') ->
  forall s, App.reachable key s -> P s.
Proof.
  intros P0 PS s R. induction R as [|ev s R IH]; [exact P0|].
  eapply PS; [exact IH | apply reachable_Step, R].
Qed.

End Steps.

(** ** The text form *)

(** A page with an empty transcript has an empty text field: the field
    takes no input while the transcript is empty, and [resetTutor] empties
    both. *)
Lemma empty_transcript_empty_input (key : option jsstring) (s : App.Page) :
  App.reachable key s ->
  App.transcript s = [] ->
  input (state (App.world s)) = [].
Proof.
  revert s.
  apply (@reachable_invariant key
           (fun s => App.transcript s = [] -> input (state (App.world s)) = [])).
  - reflexivity.
  - intros s ev s' P S. unfold App.transcript in *.
    destruct S; cbn [App.world state messages input perform update chatOpened
                     chatRefused cleared analysisOpened analysisRefused
                     closeExchange] in *;
      try assumption; try reflexivity; try discriminate.
    + intro E. unfold App.inputDisabled in H. rewrite E in H.
      cbn [List.length Nat.eqb] in H. rewrite orb_true_r in H. discriminate H.
    + intro E. destruct (messages (state w)); discriminate E.
Qed.

(** Typing a text and submitting the form. *)
Lemma submit_of_typed_text (key : option jsstring) (s : App.Page)
  (text : jsstring) :
  blank text = true \/ isLoading (state (App.world s)) = true
  \/ App.transcript s = [] ->
  let s' := App.dispatch key App.Submit
              (App.dispatch key (App.Change text) s) in
  App.transcript s' = App.transcript s
  /\ calls (App.world s') = calls (App.world s)
  /\ App.pending s' = App.pending s.
Proof.
  intro H. cbv zeta. destruct s as [w ks]. unfold App.transcript in *.
  cbn [App.world App.pending] in H.
  cbn [App.dispatch App.world App.pending]. unfold App.onChange.
  destruct (App.inputDisabled (state w)) eqn:D.
  - cbn [App.run start App.world App.pending].
    assert (SD : App.sendDisabled (state w) = true).
    { unfold App.inputDisabled in D. unfold App.sendDisabled.
      destruct (isLoading (state w)); cbn [orb] in *.
      - apply orb_true_iff. left. apply orb_true_r.
      - rewrite D. apply orb_true_r. }
    unfold App.onSubmit. rewrite SD. repeat split.
  - assert (B : blank text = true).
    { unfold App.inputDisabled in D. apply orb_false_iff in D.
      destruct D as [L N]. destruct H as [H|[H|H]]; [exact H| |].
      - rewrite H in L. discriminate L.
      - rewrite H in N. discriminate N. }
    cbn [act App.run start App.world App.pending perform update].
    unfold App.onSubmit, App.sendDisabled. cbn [state input update].
    rewrite not_trim_blank, B. repeat split.
Qed.

(** C1, the claim on a page a session reaches: an upload, a reset while
    the analysis is in flight, and the late reply.  The transcript is then
    the single model turn, without any image turn, nothing is in flight,
    and the text [hi] is taken: the form sends it, and so does
    [handleSendMessage] run to completion. *)
Lemma text_is_sent_without_image_turn :
  let s := App.session sampleKey
             [ App.Loaded sampleImage samplePng;
               App.Reset;
               App.Settle 0 (inr {| SDK.response_text := Some (js "late") |}) ]
             App.initialPage in
  let typed := App.dispatch sampleKey (App.Change (js "hi")) s in
  let s' := App.dispatch sampleKey App.Submit typed in
  let w' := fst (exec (replying (Some (js "Hello")))
                   (App.handleSendMessage sampleKey (state (App.world typed)))
                   (App.world typed)) in
  App.reachable sampleKey s
  /\ App.transcript s = [modelTurn (js "late")]
  /\ hasImageTurn (App.transcript s) = false
  /\ isLoading (state (App.world s)) = false
  /\ App.transcript s' = [modelTurn (js "late"); userTurn (js "hi")]
  /\ List.length (App.transcript s') <> List.length (App.transcript s)
  /\ calls (App.world s')
     = calls (App.world s)
       ++ [chatRequest sampleKey (js "hi")
             [remoteHistoryEntry (modelTurn (js "late"))]]
  /\ messages (state w')
     = [modelTurn (js "late"); userTurn (js "hi"); modelTurn (js "Hello")].
Proof.
  cbv zeta. split; [apply session_reachable; constructor|].
  split; [reflexivity|]. split; [reflexivity|]. split; [reflexivity|].
  split; [reflexivity|]. split; [discriminate|]. split; reflexivity.
Qed.

(** C1, as the code has it.  In every page of a session, submitting a text
    is a no-op (the transcript is left as it is and no request is issued)
    whenever the text is empty or white space, or a request is in flight,
    or the transcript is empty.  This holds of [handleSendMessage] on the
    text in the field, which leaves the whole world unchanged, and of
    typing a text and submitting the form.  In particular, typing [hi] on
    an empty conversation and submitting leaves the transcript at length
    0. *)
Theorem submitText_noop
  (key : option jsstring) (remote : SDK.RemoteModel) (s : App.Page) :
  App.reachable key s ->
  (blank (input (state (App.world s))) = true
   \/ isLoading (state (App.world s)) = true
   \/ App.transcript s = [] ->
   exec remote (App.handleSendMessage key (state (App.world s))) (App.world s)
   = (App.world s, inr tt))
  /\ (forall text,
        blank text = true
        \/ isLoading (state (App.world s)) = true
        \/ App.transcript s = [] ->
        let s' := App.dispatch key App.Submit
                    (App.dispatch key (App.Change text) s) in
        App.transcript s' = App.transcript s
        /\ List.length (App.transcript s') = List.length (App.transcript s)
        /\ calls (App.world s') = calls (App.world s)
        /\ App.pending s' = App.pending s)
  /\ (App.transcript s = [] ->
      List.length
        (App.transcript
           (App.dispatch key App.Submit
              (App.dispatch key (App.Change (js "hi")) s))) = 0).
Proof.
  intro R. split; [|split].
  - intro H. apply handleSendMessage_rejected_iff.
    destruct H as [H|[H|H]]; [left; exact H | right; exact H |].
    left. rewrite (empty_transcript_empty_input R H). reflexivity.
  - intros text H.
    destruct (submit_of_typed_text key s text H) as [T [C P]].
    cbv zeta. rewrite T. repeat split; assumption.
  - intro E.
    destruct (submit_of_typed_text key s (js "hi") (or_intror (or_intror E)))
      as [T _].
    rewrite T, E. reflexivity.
Qed.

Lemma submitText_noop_witness :
  List.length
    (App.transcript
       (App.dispatch sampleKey App.Submit
          (App.dispatch sampleKey (App.Change (js "hi")) App.initialPage))) = 0
  /\ exec (replying (Some (js "Hello")))
        (App.handleSendMessage sampleKey
           (state (App.world
              (App.dispatch sampleKey (App.Loaded sampleImage samplePng)
                 App.initialPage))))
        (App.world
           (App.dispatch sampleKey (App.Loaded sampleImage samplePng)
              App.initialPage))
     = (App.world
          (App.dispatch sampleKey (App.Loaded sampleImage samplePng)
             App.initialPage),
        inr tt).
Proof.
  split.
  - pose proof (@submitText_noop sampleKey (replying (Some (js "Hello")))
                  App.initialPage (App.reachable_initial sampleKey))
      as [_ [_ H]].
    apply (H eq_refl).
  - pose proof (@submitText_noop sampleKey (replying (Some (js "Hello")))
                  (App.dispatch sampleKey (App.Loaded sampleImage samplePng)
                     App.initialPage)
                  (App.reachable_dispatch _ (App.reachable_initial sampleKey)))
      as [H _].
    apply H. right. left. reflexivity.
Defined.

(** ** What holds throughout a session *)

Lemma remove_nth_length {A} (i : nat) (l : list A) (x : A) :
  nth_error l i = Some x ->
  S (List.length (App.remove_nth i l)) = List.length l.
Proof.
  revert i. induction l as [|y l IH]; intros i N.
  - destruct i; discriminate.
  - destruct i; cbn [App.remove_nth List.length]; [reflexivity|].
    f_equal. apply IH, N.
Qed.

Lemma closingTurn_modelTurn (apology : jsstring) (r : SDK.Error + jsstring) :
  exists text, closingTurn apology r = modelTurn text.
Proof. destruct r; eexists; reflexivity. Qed.

Lemma plainTurn_modelTurn (text : jsstring) : plainTurn (modelTurn text).
Proof. split; [reflexivity | discriminate]. Qed.

Lemma shaped_snoc (l : list Message) (m : Message) :
  shaped l -> plainTurn m -> shaped (l ++ [m]).
Proof.
  destruct l as [|m0 rest]; cbn.
  - intros _ P. split; [left; exact P | constructor].
  - intros [H F] P. split; [exact H|].
    apply Forall_app. split; [exact F | constructor; [exact P | constructor]].
Qed.

(** X1.  Without a credential a session never issues a request: in every
    page it can reach no request has been sent, none is outstanding, and
    the in-flight flag is down. *)
Theorem no_credential_no_request (key : option jsstring) (s : App.Page) :
  truthy_opt key = false ->
  App.reachable key s ->
  calls (App.world s) = []
  /\ App.pending s = []
  /\ isLoading (state (App.world s)) = false.
Proof.
  intros K R. revert s R.
  apply (@reachable_invariant key
           (fun s => calls (App.world s) = [] /\ App.pending s = []
                     /\ isLoading (state (App.world s)) = false)).
  - repeat split.
  - intros s ev s' [C [P L]] S.
    destruct S; cbn [App.world App.pending] in *;
      try congruence; try (repeat split; assumption).
    subst. destruct i; discriminate.
Qed.

Lemma no_credential_no_request_witness :
  calls (App.world (App.session None
           [App.Loaded sampleImage samplePng; App.Change (js "hi"); App.Submit]
           App.initialPage)) = []
  /\ App.pending (App.session None
           [App.Loaded sampleImage samplePng; App.Change (js "hi"); App.Submit]
           App.initialPage) = []
  /\ isLoading (state (App.world (App.session None
           [App.Loaded sampleImage samplePng; App.Change (js "hi"); App.Submit]
           App.initialPage))) = false.
Proof.
  apply (@no_credential_no_request None _ eq_refl).
  apply session_reachable, App.reachable_initial.
Defined.

(** X2.  Every request a session has issued is one of the two the
    component builds with its credential: an analysis of an image, or a
    chat whose text is not blank and whose history projects a transcript
    that was not empty.  So every request carries the fixed model name,
    system instruction and thinking level, and none is issued without a
    credential. *)
Theorem requests_are_well_formed (key : option jsstring) (s : App.Page) :
  App.reachable key s ->
  Forall (issuedBy key) (calls (App.world s))
  /\ (calls (App.world s) <> [] -> truthy_opt key = true).
Proof.
  revert s.
  apply (@reachable_invariant key
           (fun s => Forall (issuedBy key) (calls (App.world s))
                     /\ (calls (App.world s) <> [] -> truthy_opt key = true))).
  - split; [constructor | intro H; contradiction H; reflexivity].
  - intros s ev s' [F K] S.
    destruct S; cbn [App.world calls perform update chatOpened chatRefused
                     cleared analysisOpened analysisRefused closeExchange] in *;
      try (split; assumption).
    + split; [|intros _; assumption].
      apply Forall_app. split; [exact F|]. constructor; [|constructor].
      right. destruct (sendDisabled_false _ H) as [B [_ N]].
      exists (input (state w)), (messages (state w)). repeat split; assumption.
    + split; [|intros _; assumption].
      apply Forall_app. split; [exact F|]. constructor; [|constructor].
      left. exists b, t. reflexivity.
Qed.

Lemma requests_are_well_formed_witness :
  Forall (issuedBy sampleKey)
    (calls (App.world (App.session sampleKey
       [ App.Loaded sampleImage samplePng;
         App.Settle 0 (inr {| SDK.response_text := Some (js "Let's start") |});
         App.Change (js "why?"); App.Submit ]
       App.initialPage))).
Proof.
  apply (@requests_are_well_formed sampleKey).
  apply session_reachable, App.reachable_initial.
Defined.

(** X3.  The in-flight flag is never left up with nothing to wait for:
    in every page of a session, when [isLoading] is true some request is
    outstanding. *)
Theorem loading_flag_has_a_request (key : option jsstring) (s : App.Page) :
  App.reachable key s ->
  isLoading (state (App.world s)) = true ->
  App.pending s <> [].
Proof.
  revert s.
  apply (@reachable_invariant key
           (fun s => isLoading (state (App.world s)) = true ->
                     App.pending s <> [])).
  - discriminate.
  - intros s ev s' P S.
    destruct S; cbn [App.world App.pending state isLoading perform update
                     chatOpened chatRefused cleared analysisOpened
                     analysisRefused closeExchange] in *;
      try assumption; try discriminate.
    + intros _ E. destruct ks; discriminate.
    + intros _ E. destruct ks; discriminate.
Qed.

Lemma loading_flag_has_a_request_witness :
  App.pending (App.session sampleKey
                 [App.Loaded sampleImage samplePng; App.Reset] App.initialPage)
  <> [].
Proof.
  apply (@loading_flag_has_a_request sampleKey).
  - apply session_reachable, App.reachable_initial.
  - reflexivity.
Defined.

(** X4.  When an outstanding request settles, resolved or rejected, its
    exchange is closed in one step: exactly one model turn without an image
    is appended to the transcript as it is at that moment, the in-flight
    flag is cleared (also when other requests are still outstanding), no
    new request is issued and the request is no longer outstanding. *)
Theorem settle_closes_one_exchange
  (key : option jsstring) (s : App.Page) (i : nat) (r : SDK.Outcome) k :
  App.reachable key s ->
  nth_error (App.pending s) i = Some k ->
  let s' := App.dispatch key (App.Settle i r) s in
  (exists text, App.transcript s' = App.transcript s ++ [modelTurn text])
  /\ isLoading (state (App.world s')) = false
  /\ input (state (App.world s')) = input (state (App.world s))
  /\ calls (App.world s') = calls (App.world s)
  /\ S (List.length (App.pending s')) = List.length (App.pending s).
Proof.
  intros R N. cbv zeta.
  pose proof (reachable_exchangeContinuation R) as F.
  destruct s as [w ks]. cbn [App.pending App.world] in *.
  assert (X : exchangeContinuation k).
  { rewrite Forall_forall in F. apply F. eapply nth_error_In, N. }
  destruct X as [x X].
  unfold App.transcript. cbn [App.dispatch App.pending App.world].
  rewrite N. unfold App.run. rewrite X.
  cbn [App.world App.pending closeExchange state messages isLoading input calls].
  split; [|split; [reflexivity|split; [reflexivity|split; [reflexivity|]]]].
  - destruct (closingTurn_modelTurn (apologyOf x) (textOf (fallbackOf x) r))
      as [text T].
    exists text. rewrite (X r w).
    cbn [App.world closeExchange state messages]. rewrite T. reflexivity.
  - apply (remove_nth_length _ _ N).
Qed.

Lemma settle_closes_one_exchange_witness :
  exists text,
    App.transcript
      (App.dispatch sampleKey
         (App.Settle 0 (inl (SDK.JsError (js "fetch failed"))))
         (App.dispatch sampleKey (App.Loaded sampleImage samplePng)
            App.initialPage))
    = App.transcript
        (App.dispatch sampleKey (App.Loaded sampleImage samplePng)
           App.initialPage)
      ++ [modelTurn text].
Proof.
  eapply (@settle_closes_one_exchange sampleKey
            (App.dispatch sampleKey (App.Loaded sampleImage samplePng)
               App.initialPage)
            0 (inl (SDK.JsError (js "fetch failed")))).
  - apply App.reachable_dispatch, App.reachable_initial.
  - reflexivity.
Defined.

(** X5.  [resetTutor] does not cancel an outstanding request: when the
    request settles after the reset, its model turn is appended to the
    emptied transcript, which then consists of that single turn and has no
    image turn. *)
Theorem reset_does_not_cancel
  (key : option jsstring) (s : App.Page) (i : nat) (r : SDK.Outcome) k :
  App.reachable key s ->
  nth_error (App.pending s) i = Some k ->
  let s' := App.dispatch key (App.Settle i r) (App.dispatch key App.Reset s) in
  (exists text, App.transcript s' = [modelTurn text])
  /\ hasImageTurn (App.transcript s') = false
  /\ isLoading (state (App.world s')) = false.
Proof.
  intros R N. cbv zeta.
  pose proof (reachable_exchangeContinuation R) as F.
  destruct s as [w ks]. cbn [App.pending App.world] in *.
  assert (X : exchangeContinuation k).
  { rewrite Forall_forall in F. apply F. eapply nth_error_In, N. }
  destruct X as [x X].
  destruct (closingTurn_modelTurn (apologyOf x) (textOf (fallbackOf x) r))
    as [text T].
  assert (E : App.dispatch key (App.Settle i r)
                (App.dispatch key App.Reset (App.mkPage w ks))
              = App.mkPage (closeExchange x r (cleared w))
                           (App.remove_nth i ks)).
  { change (App.dispatch key App.Reset (App.mkPage w ks))
      with (App.mkPage (cleared w) ks).
    cbn [App.dispatch App.pending App.world].
    rewrite N. unfold App.run. rewrite (X r (cleared w)). reflexivity. }
  rewrite E. unfold App.transcript.
  cbn [App.world closeExchange cleared state messages isLoading List.app].
  rewrite T. split; [exists text; reflexivity|]. split; reflexivity.
Qed.

Lemma reset_does_not_cancel_witness :
  exists text,
    App.transcript
      (App.dispatch sampleKey
         (App.Settle 0 (inr {| SDK.response_text := Some (js "late") |}))
         (App.dispatch sampleKey App.Reset
            (App.dispatch sampleKey (App.Loaded sampleImage samplePng)
               App.initialPage)))
    = [modelTurn text].
Proof.
  eapply (@reset_does_not_cancel sampleKey
            (App.dispatch sampleKey (App.Loaded sampleImage samplePng)
               App.initialPage)
            0 (inr {| SDK.response_text := Some (js "late") |})).
  - apply App.reachable_dispatch, App.reachable_initial.
  - reflexivity.
Defined.

(** X6.  The shape of the transcript in every page of a session: only its
    first message can carry an image, and then it is the user turn built by
    [startInitialAnalysis]; every other message has no image, and a user
    turn without an image never has a blank text. *)
Theorem transcript_is_shaped (key : option jsstring) (s : App.Page) :
  App.reachable key s ->
  shaped (App.transcript s)
  /\ (forall i m, nth_error (App.transcript s) (S i) = Some m ->
                  image m = None)
  /\ (forall m, In m (App.transcript s) -> role m = user -> image m = None ->
                blank (content m) = false).
Proof.
  intro R.
  assert (H : shaped (App.transcript s)).
  { revert s R.
    apply (@reachable_invariant key (fun s => shaped (App.transcript s))).
    - exact I.
    - intros s ev s' P S. unfold App.transcript in *.
      destruct S; cbn [App.world state messages perform update chatOpened
                       chatRefused cleared analysisOpened analysisRefused
                       closeExchange] in *; try assumption.
      + apply shaped_snoc; [exact P|].
        destruct (sendDisabled_false _ H) as [B _].
        split; [reflexivity | intros _; exact B].
      + apply shaped_snoc; [|apply plainTurn_modelTurn].
        apply shaped_snoc; [exact P|].
        destruct (sendDisabled_false _ H) as [B _].
        split; [reflexivity | intros _; exact B].
      + exact I.
      + split; [right; exists b, t; reflexivity | constructor].
      + split; [right; exists b, t; reflexivity|].
        constructor; [apply plainTurn_modelTurn | constructor].
      + apply shaped_snoc; [exact P|].
        destruct (closingTurn_modelTurn (apologyOf x) (textOf (fallbackOf x) r))
          as [text T].
        rewrite T. apply plainTurn_modelTurn. }
  split; [exact H|].
  destruct (App.transcript s) as [|m0 rest]; cbn [shaped] in H.
  - split; [intros i m N; destruct i; discriminate | intros m []].
  - destruct H as [H0 F]. rewrite Forall_forall in F. split.
    + intros i m N. cbn [nth_error] in N.
      apply nth_error_In in N. apply (F m N).
    + intros m [E|M] U Im.
      * subst m0. destruct H0 as [[_ P]|[b [t E]]]; [exact (P U)|].
        subst m. discriminate Im.
      * apply (F m M), U.
Qed.

Lemma transcript_is_shaped_witness :
  shaped (App.transcript
            (App.session sampleKey
               [ App.Loaded sampleImage samplePng;
                 App.Settle 0 (inr {| SDK.response_text := Some (js "Let's start") |});
                 App.Change (js "why?"); App.Submit ]
               App.initialPage)).
Proof.
  apply (@transcript_is_shaped sampleKey).
  apply session_reachable, App.reachable_initial.
Defined.

(** X7.  On an empty transcript the text form is closed: whatever is typed
    and however often the form is submitted, the page stays as it is; no
    message appears and no request is issued. *)
Theorem empty_transcript_ignores_text
  (key : option jsstring) (evs : list App.Event) (s : App.Page) :
  Forall textEvent evs ->
  App.transcript s = [] ->
  App.session key evs s = s.
Proof.
  intros F E. destruct s as [w ks]. unfold App.transcript in E.
  cbn [App.world] in E.
  induction F as [|ev evs T F IH]; [reflexivity|].
  unfold App.session. cbn [fold_left]. fold (App.session key evs).
  assert (D : App.dispatch key ev (App.mkPage w ks) = App.mkPage w ks).
  { destruct ev as [v| | |b t|i r]; try contradiction;
      cbn [App.dispatch App.world App.pending].
    - unfold App.onChange, App.inputDisabled. rewrite E.
      cbn [List.length Nat.eqb]. rewrite orb_true_r. reflexivity.
    - unfold App.onSubmit, App.sendDisabled. rewrite E.
      cbn [List.length Nat.eqb]. rewrite orb_true_r. reflexivity. }
  rewrite D. exact IH.
Qed.

Lemma empty_transcript_ignores_text_witness :
  App.session sampleKey
    [App.Change (js "hi"); App.Submit; App.Change (js "hello?"); App.Submit]
    (App.dispatch sampleKey App.Reset
       (App.session sampleKey
          [ App.Loaded sampleImage samplePng;
            App.Settle 0 (inr {| SDK.response_text := Some (js "Let's start") |}) ]
          App.initialPage))
  = App.dispatch sampleKey App.Reset
      (App.session sampleKey
         [ App.Loaded sampleImage samplePng;
           App.Settle 0 (inr {| SDK.response_text := Some (js "Let's start") |}) ]
         App.initialPage).
Proof.
  apply (@empty_transcript_ignores_text sampleKey).
  - repeat constructor.
  - reflexivity.
Defined.

(** X8.  An upload is not held back by the in-flight flag.  With a
    credential, a loaded image always starts a new analysis, in any page:
    one more request is issued and outstanding, the transcript becomes the
    new image turn and the flag is raised.  So after an upload, a reset and
    a second upload, two requests are outstanding at once. *)
Theorem upload_is_not_guarded
  (key : option jsstring) (s : App.Page) (b t : jsstring) :
  truthy_opt key = true ->
  let s' := App.dispatch key (App.Loaded b t) s in
  calls (App.world s') = calls (App.world s) ++ [analysisRequest key b t]
  /\ List.length (App.pending s') = S (List.length (App.pending s))
  /\ App.transcript s' = [imageTurn b t]
  /\ isLoading (state (App.world s')) = true
  /\ List.length
       (App.pending
          (App.session key [App.Loaded b t; App.Reset; App.Loaded b t]
             App.initialPage)) = 2.
Proof.
  intro K. cbv zeta.
  assert (L : forall s0,
             App.world (App.dispatch key (App.Loaded b t) s0)
               = analysisOpened key b t (App.world s0)
             /\ List.length (App.pending (App.dispatch key (App.Loaded b t) s0))
                = S (List.length (App.pending s0))).
  { intro s0. pose proof (onloadend_start key b t (App.world s0)) as O.
    rewrite K in O. destruct O as [k [O _]].
    cbn [App.dispatch]. unfold App.run. rewrite O.
    cbn [App.world App.pending]. split; [reflexivity|].
    rewrite length_app. cbn [List.length]. lia. }
  destruct (L s) as [W P]. unfold App.transcript. rewrite W.
  split; [reflexivity|]. split; [exact P|].
  split; [reflexivity|]. split; [reflexivity|].
  unfold App.session. cbn [fold_left].
  destruct (L (App.dispatch key App.Reset
                 (App.dispatch key (App.Loaded b t) App.initialPage)))
    as [_ P2].
  rewrite P2.
  change (App.pending (App.dispatch key App.Reset
                         (App.dispatch key (App.Loaded b t) App.initialPage)))
    with (App.pending (App.dispatch key (App.Loaded b t) App.initialPage)).
  destruct (L App.initialPage) as [_ P1]. rewrite P1. reflexivity.
Qed.

Lemma upload_is_not_guarded_witness :
  List.length
    (App.pending
       (App.session sampleKey
          [ App.Loaded sampleImage samplePng; App.Reset;
            App.Loaded sampleImage samplePng ]
          App.initialPage))
  = 2.
Proof.
  apply (@upload_is_not_guarded sampleKey App.initialPage
           sampleImage samplePng eq_refl).
Defined.

(** ** Exchanges from end to end *)

Lemma split_without_separator (sep : N) (s : jsstring) :
  ~ In sep s -> split sep s = [s].
Proof.
  induction s as [|c r IH]; intro H; cbn [split]; [reflexivity|].
  destruct (N.eqb_spec c sep) as [E|E].
  - exfalso. apply H. left. exact E.
  - rewrite IH; [reflexivity|]. intro I. apply H. right. exact I.
Qed.

Lemma split_at_first_separator (sep : N) (a b : jsstring) :
  ~ In sep a -> split sep (a ++ sep :: b) = a :: split sep b.
Proof.
  induction a as [|c r IH]; intro H; cbn [List.app split].
  - rewrite N.eqb_refl. reflexivity.
  - destruct (N.eqb_spec c sep) as [E|E].
    + exfalso. apply H. left. exact E.
    + rewrite IH; [reflexivity|]. intro I. apply H. right. exact I.
Qed.

(** X9.  The upload round trip.  For a data URL [data:<type>;base64,<payload>]
    whose type and payload contain no comma, [split(',')[1]] is exactly
    the payload; [reader.onloadend] stages the payload and the type, sends
    the payload and the type to the model (when there is a credential), and
    the image of the user turn it puts in the transcript is the data URL it
    started from. *)
Theorem upload_round_trip
  (key : option jsstring) (remote : SDK.RemoteModel)
  (type payload : jsstring) (w : World) :
  ~ In COMMA type ->
  ~ In COMMA payload ->
  let result := js "data:" ++ type ++ js ";base64," ++ payload in
  App.base64String result = Some payload
  /\ let w' := fst (exec remote (App.onloadend key payload type) w) in
     option_map image (hd_error (messages (state w'))) = Some (Some result)
     /\ selectedImage (state w') = Some payload
     /\ mimeType (state w') = Some type
     /\ calls w' = (if truthy_opt key
                    then calls w ++ [analysisRequest key payload type]
                    else calls w).
Proof.
  intros T P. cbv zeta. split.
  - unfold App.base64String.
    change (js "data:" ++ type ++ js ";base64," ++ payload)
      with (js "data:" ++ type ++ js ";base64" ++ COMMA :: payload).
    rewrite !app_assoc. rewrite split_at_first_separator.
    + rewrite (@split_without_separator COMMA payload P). reflexivity.
    + intro H. apply in_app_or in H. destruct H as [H|H].
      * apply in_app_or in H. destruct H as [H|H]; [|exact (T H)].
        cbn in H. repeat (destruct H as [H|H]; [discriminate H|]). exact H.
      * cbn in H. repeat (destruct H as [H|H]; [discriminate H|]). exact H.
  - unfold App.onloadend, act. cbn [bind exec].
    rewrite startInitialAnalysis_exec. cbv zeta.
    cbn [fst state messages selectedImage mimeType calls perform update
         List.app hd_error option_map image imageTurn].
    repeat split.
Qed.

Lemma upload_round_trip_witness :
  App.base64String (js "data:image/png;base64,iVBORw0KGgo=")
  = Some sampleImage.
Proof.
  apply (@upload_round_trip sampleKey (replying None) samplePng sampleImage
           initialWorld).
  - cbn. intro H. repeat (destruct H as [H|H]; [discriminate H|]). exact H.
  - cbn. intro H. repeat (destruct H as [H|H]; [discriminate H|]). exact H.
Defined.

(** X10.  What an upload ends with, case by case.  Without a credential:
    the apology of the handler, no request, and the missing-credential
    error on the console.  Request rejected: the same apology, the error on
    the console.  Request resolved with a text: that text.  Resolved
    without a text: the fallback of the client.  The console is untouched
    in the last two cases, and the in-flight flag is down in all four. *)
Theorem analysis_exchange_outcomes
  (key : option jsstring) (remote : SDK.RemoteModel)
  (b t : jsstring) (w : World) :
  let w' := fst (exec remote (App.onloadend key b t) w) in
  let request := analysisRequest key b t in
  (truthy_opt key = false ->
     messages (state w') = [imageTurn b t; modelTurn analysisApology]
     /\ calls w' = calls w
     /\ console w' = console w ++ [missingKey])
  /\ (truthy_opt key = true -> forall e, remote request = inl e ->
        messages (state w') = [imageTurn b t; modelTurn analysisApology]
        /\ calls w' = calls w ++ [request]
        /\ console w' = console w ++ [e])
  /\ (truthy_opt key = true -> forall text,
        remote request = inr {| SDK.response_text := Some text |} ->
        text <> [] ->
        messages (state w') = [imageTurn b t; modelTurn text]
        /\ calls w' = calls w ++ [request]
        /\ console w' = console w)
  /\ (truthy_opt key = true -> forall text,
        remote request = inr {| SDK.response_text := text |} ->
        truthy_opt text = false ->
        messages (state w') = [imageTurn b t; modelTurn analysisEmptyFallback]
        /\ calls w' = calls w ++ [request]
        /\ console w' = console w)
  /\ isLoading (state w') = false.
Proof.
  cbv zeta. unfold App.onloadend, act. cbn [bind exec].
  rewrite startInitialAnalysis_exec. cbv zeta.
  rewrite analyzeMathProblem_answer.
  cbn [fst state messages calls console isLoading perform update].
  destruct (truthy_opt key).
  - split; [discriminate|].
    split; [intros _ e E; rewrite E; repeat split|].
    split.
    { intros _ text E N. rewrite E.
      destruct text; [exfalso; apply N; reflexivity|]. repeat split. }
    split; [|reflexivity].
    intros _ text E N. rewrite E.
    destruct text as [[|c r]|]; try discriminate N; repeat split.
  - split; [intros _; repeat split|].
    split; [discriminate|]. split; [discriminate|].
    split; [discriminate|reflexivity].
Qed.

Lemma analysis_exchange_outcomes_witness :
  messages (state (fst (exec (replying None)
                          (App.onloadend sampleKey sampleImage samplePng)
                          initialWorld)))
  = [imageTurn sampleImage samplePng; modelTurn analysisEmptyFallback].
Proof.
  pose proof (@analysis_exchange_outcomes sampleKey (replying None)
                sampleImage samplePng initialWorld) as [_ [_ [_ [H _]]]].
  apply (H eq_refl None eq_refl eq_refl).
Defined.

(** X11.  What a submitted text ends with, case by case, when the handler
    takes it (text not blank, no request in flight).  The user turn with
    the text as typed, white space included, is followed by: the apology of
    the handler when there is no credential (no request, the error on the
    console) or when the request is rejected (the error on the console);
    the text of the response; or the fallback of the client when the
    response has no text.  The text field is emptied and the in-flight flag
    is down in all cases. *)
Theorem chat_exchange_outcomes
  (key : option jsstring) (remote : SDK.RemoteModel) (w : World) :
  blank (input (state w)) = false ->
  isLoading (state w) = false ->
  let w' := fst (exec remote (App.handleSendMessage key (state w)) w) in
  let said := userTurn (input (state w)) in
  let request := chatRequest key (input (state w))
                   (map remoteHistoryEntry (messages (state w))) in
  (truthy_opt key = false ->
     messages (state w') = messages (state w) ++ [said; modelTurn chatApology]
     /\ calls w' = calls w
     /\ console w' = console w ++ [missingKey])
  /\ (truthy_opt key = true -> forall e, remote request = inl e ->
        messages (state w') = messages (state w) ++ [said; modelTurn chatApology]
        /\ calls w' = calls w ++ [request]
        /\ console w' = console w ++ [e])
  /\ (truthy_opt key = true -> forall text,
        remote request = inr {| SDK.response_text := Some text |} ->
        text <> [] ->
        messages (state w') = messages (state w) ++ [said; modelTurn text]
        /\ calls w' = calls w ++ [request]
        /\ console w' = console w)
  /\ (truthy_opt key = true -> forall text,
        remote request = inr {| SDK.response_text := text |} ->
        truthy_opt text = false ->
        messages (state w')
        = messages (state w) ++ [said; modelTurn chatEmptyFallback]
        /\ calls w' = calls w ++ [request]
        /\ console w' = console w)
  /\ input (state w') = []
  /\ isLoading (state w') = false.
Proof.
  intros B L. cbv zeta. rewrite handleSendMessage_exec. cbv zeta.
  rewrite chatWithTutor_answer, B, L.
  cbn [orb fst state messages calls console isLoading input].
  rewrite <- !app_assoc. cbn [List.app].
  destruct (truthy_opt key).
  - split; [discriminate|].
    split; [intros _ e E; rewrite E; repeat split|].
    split.
    { intros _ text E N. rewrite E.
      destruct text; [exfalso; apply N; reflexivity|]. repeat split. }
    split; [|split; reflexivity].
    intros _ text E N. rewrite E.
    destruct text as [[|c r]|]; try discriminate N; repeat split.
  - split; [intros _; repeat split|].
    split; [discriminate|]. split; [discriminate|].
    split; [discriminate|split; reflexivity].
Qed.

Lemma chat_exchange_outcomes_witness :
  messages (state (fst (exec (replying (Some []))
              (App.handleSendMessage sampleKey
                 (state (worldWith [modelTurn (js "b")] (js " why? ") false)))
              (worldWith [modelTurn (js "b")] (js " why? ") false))))
  = [ modelTurn (js "b"); userTurn (js " why? ");
      modelTurn chatEmptyFallback ].
Proof.
  pose proof (@chat_exchange_outcomes sampleKey (replying (Some []))
                (worldWith [modelTurn (js "b")] (js " why? ") false)
                eq_refl eq_refl) as [_ [_ [_ [H _]]]].
  apply (H eq_refl (Some []) eq_refl eq_refl).
Defined.

(** X12.  The two controls of the form agree with the handler.  The submit
    button is never enabled while the text field is disabled, and a submit
    through an enabled button is never turned down by [handleSendMessage]:
    it always adds the user turn and one model turn and empties the text
    field. *)
Theorem enabled_button_sends
  (key : option jsstring) (remote : SDK.RemoteModel) (w : World) :
  (App.inputDisabled (state w) = true -> App.sendDisabled (state w) = true)
  /\ (App.sendDisabled (state w) = false ->
      let w' := fst (exec remote (App.onSubmit key (state w)) w) in
      (exists reply,
         messages (state w')
         = messages (state w) ++ [userTurn (input (state w)); modelTurn reply])
      /\ input (state w') = []
      /\ isLoading (state w') = false).
Proof.
  split.
  - unfold App.inputDisabled, App.sendDisabled.
    destruct (isLoading (state w)); cbn [orb].
    + intros _. apply orb_true_iff. left. apply orb_true_r.
    + intro E. rewrite E. apply orb_true_r.
  - intro D. cbv zeta. unfold App.onSubmit. rewrite D.
    destruct (sendDisabled_false _ D) as [B [L _]].
    rewrite handleSendMessage_exec. cbv zeta. rewrite B, L.
    cbn [orb fst state messages input isLoading].
    split; [|split; reflexivity].
    destruct (closingTurn_modelTurn chatApology
                (answer remote
                   (Gemini.chatWithTutor key (input (state w))
                      (map remoteHistoryEntry (messages (state w))))))
      as [reply T].
    exists reply. rewrite T, <- app_assoc. reflexivity.
Qed.

Lemma enabled_button_sends_witness :
  exists reply,
    messages (state (fst (exec rejecting
                (App.onSubmit sampleKey
                   (state (worldWith [modelTurn (js "b")] (js "why?") false)))
                (worldWith [modelTurn (js "b")] (js "why?") false))))
    = [modelTurn (js "b"); userTurn (js "why?"); modelTurn reply].
Proof.
  pose proof (@enabled_button_sends sampleKey rejecting
                (worldWith [modelTurn (js "b")] (js "why?") false)) as [_ H].
  apply (H eq_refl).
Defined.

(** X13.  The history grows with the conversation.  When two texts are
    sent one after the other, the history of the second request is the
    history of the first followed by the projections of the first text and
    of the model turn that closed the first exchange, be it a reply or an
    apology. *)
Theorem history_grows_with_the_conversation
  (key : option jsstring) (remote1 remote2 : SDK.RemoteModel)
  (w : World) (text2 : jsstring) :
  truthy_opt key = true ->
  blank (input (state w)) = false ->
  isLoading (state w) = false ->
  blank text2 = false ->
  let history1 := map remoteHistoryEntry (messages (state w)) in
  let w1 := fst (exec remote1 (App.handleSendMessage key (state w)) w) in
  let typed := perform (SetInput text2) w1 in
  let w2 := fst (exec remote2 (App.handleSendMessage key (state typed)) typed) in
  exists reply,
    messages (state w1)
    = messages (state w) ++ [userTurn (input (state w)); modelTurn reply]
    /\ calls w2
       = calls w ++
         [ chatRequest key (input (state w)) history1;
           chatRequest key text2
             (history1 ++
              [ remoteHistoryEntry (userTurn (input (state w)));
                remoteHistoryEntry (modelTurn reply) ]) ].
Proof.
  intros K B L B2. cbv zeta.
  rewrite (handleSendMessage_exec key remote1 w). cbv zeta.
  rewrite B, L, K. cbn [orb fst].
  destruct (closingTurn_modelTurn chatApology
              (answer remote1
                 (Gemini.chatWithTutor key (input (state w))
                    (map remoteHistoryEntry (messages (state w))))))
    as [reply T].
  rewrite T. exists reply.
  rewrite handleSendMessage_exec. cbv zeta.
  cbn [perform update state input isLoading messages calls fst].
  rewrite B2, K. cbn [orb fst state messages calls].
  split; [rewrite <- app_assoc; reflexivity|].
  rewrite !map_app, <- !app_assoc. reflexivity.
Qed.

Lemma history_grows_with_the_conversation_witness :
  exists reply,
    calls (fst (exec (replying (Some (js "d")))
                  (App.handleSendMessage sampleKey
                     (state (perform (SetInput (js "and then?"))
                               (fst (exec rejecting
                                       (App.handleSendMessage sampleKey
                                          (state (worldWith [modelTurn (js "b")]
                                                            (js "why?") false)))
                                       (worldWith [modelTurn (js "b")]
                                                  (js "why?") false))))))
                  (perform (SetInput (js "and then?"))
                     (fst (exec rejecting
                             (App.handleSendMessage sampleKey
                                (state (worldWith [modelTurn (js "b")]
                                                  (js "why?") false)))
                             (worldWith [modelTurn (js "b")]
                                        (js "why?") false))))))
    = [ chatRequest sampleKey (js "why?")
          [remoteHistoryEntry (modelTurn (js "b"))];
        chatRequest sampleKey (js "and then?")
          [ remoteHistoryEntry (modelTurn (js "b"));
            remoteHistoryEntry (userTurn (js "why?"));
            remoteHistoryEntry (modelTurn reply) ] ].
Proof.
  destruct (@history_grows_with_the_conversation sampleKey rejecting
              (replying (Some (js "d")))
              (worldWith [modelTurn (js "b")] (js "why?") false)
              (js "and then?") eq_refl eq_refl eq_refl eq_refl)
    as [reply [_ H]].
  exists reply. exact H.
Defined.

(** ** Exchanges and events *)

Lemma remove_nth_last {A} (l : list A) (x : A) :
  App.remove_nth (List.length l) (l ++ [x]) = l.
Proof.
  induction l as [|y l IH]; cbn [List.length List.app App.remove_nth];
    [reflexivity|]. rewrite IH. reflexivity.
Qed.

Lemma nth_error_last {A} (l : list A) (x : A) :
  nth_error (l ++ [x]) (List.length l) = Some x.
Proof.
  induction l as [|y l IH]; cbn [List.length List.app nth_error];
    [reflexivity | exact IH].
Qed.

(** Starting a handler that awaits, then settling its request at once. *)
Lemma settle_newest (key : option jsstring) (remote : SDK.RemoteModel)
  (p : Prog unit) (w w1 : World) ks c k x :
  start p w = (w1, Waiting c k) ->
  settles x k ->
  App.dispatch key (App.Settle (List.length ks) (remote c))
    (App.run p w ks)
  = App.mkPage (fst (exec remote p w)) ks.
Proof.
  intros S X. unfold App.run. rewrite S.
  cbn [App.dispatch App.pending App.world].
  rewrite nth_error_last, remove_nth_last.
  unfold App.run. rewrite (X (remote c) w1).
  rewrite (exec_start remote p w), S.
  rewrite (exec_start remote (k (remote c)) w1), (X (remote c) w1).
  reflexivity.
Qed.

(** X14.  An exchange that nothing interrupts is the handler run to
    completion: with a credential, dispatching an upload (or a submit the
    form lets through) and then settling the request it issued with the
    answer of the remote model gives the page whose world is the one the
    handler produces when run in one go, with the same requests
    outstanding as before. *)
Theorem uninterrupted_exchange_is_exec
  (key : option jsstring) (remote : SDK.RemoteModel) (s : App.Page)
  (b t : jsstring) :
  truthy_opt key = true ->
  App.dispatch key
    (App.Settle (List.length (App.pending s))
                (remote (analysisRequest key b t)))
    (App.dispatch key (App.Loaded b t) s)
  = App.mkPage (fst (exec remote (App.onloadend key b t) (App.world s)))
               (App.pending s)
  /\ (App.sendDisabled (state (App.world s)) = false ->
      App.dispatch key
        (App.Settle (List.length (App.pending s))
           (remote (chatRequest key (input (state (App.world s)))
                      (map remoteHistoryEntry
                         (messages (state (App.world s)))))))
        (App.dispatch key App.Submit s)
      = App.mkPage
          (fst (exec remote
                  (App.handleSendMessage key (state (App.world s)))
                  (App.world s)))
          (App.pending s)).
Proof.
  intro K. split.
  - pose proof (onloadend_start key b t (App.world s)) as O.
    rewrite K in O. destruct O as [k [O X]].
    cbn [App.dispatch]. apply (@settle_newest key remote _ _ _ (App.pending s) _ _ _ O X).
  - intro D. destruct (sendDisabled_false _ D) as [B [L _]].
    pose proof (handleSendMessage_start key (App.world s) B L) as O.
    rewrite K in O. destruct O as [k [O X]].
    cbn [App.dispatch]. unfold App.onSubmit. rewrite D.
    apply (@settle_newest key remote _ _ _ (App.pending s) _ _ _ O X).
Qed.

Lemma uninterrupted_exchange_is_exec_witness :
  App.transcript
    (App.dispatch sampleKey
       (App.Settle 0 (replying (Some (js "Let's start"))
                        (analysisRequest sampleKey sampleImage samplePng)))
       (App.dispatch sampleKey (App.Loaded sampleImage samplePng)
          App.initialPage))
  = messages (state (fst (exec (replying (Some (js "Let's start")))
                            (App.onloadend sampleKey sampleImage samplePng)
                            initialWorld))).
Proof.
  pose proof (@uninterrupted_exchange_is_exec sampleKey
                (replying (Some (js "Let's start"))) App.initialPage
                sampleImage samplePng eq_refl) as [H _].
  exact (f_equal App.transcript H).
Defined.

(** X15.  The staged image goes with the transcript.  In every page of a
    session the selected image and its MIME type are set together or not
    at all, and when the first message of the transcript carries an image
    it is the image turn built from exactly the staged payload and MIME
    type. *)
Theorem staged_image_matches_transcript (key : option jsstring) (s : App.Page) :
  App.reachable key s ->
  (selectedImage (state (App.world s)) = None
   <-> mimeType (state (App.world s)) = None)
  /\ (forall m, hd_error (App.transcript s) = Some m -> image m <> None ->
      exists b t,
        m = imageTurn b t
        /\ selectedImage (state (App.world s)) = Some b
        /\ mimeType (state (App.world s)) = Some t).
Proof.
  revert s.
  apply (@reachable_invariant key
           (fun s =>
              (selectedImage (state (App.world s)) = None
               <-> mimeType (state (App.world s)) = None)
              /\ (forall m, hd_error (App.transcript s) = Some m ->
                            image m <> None ->
                  exists b t,
                    m = imageTurn b t
                    /\ selectedImage (state (App.world s)) = Some b
                    /\ mimeType (state (App.world s)) = Some t))).
  - split; [tauto | discriminate].
  - intros s ev s' [E H] S. unfold App.transcript in *.
    assert (G : forall (l : list Message) text m,
               hd_error (l ++ [modelTurn text]) = Some m -> image m <> None ->
               hd_error l = Some m).
    { intros [|m0 l] text m; cbn [List.app hd_error]; [|tauto].
      intros M I. injection M as <-. contradiction I. reflexivity. }
    destruct S; cbn [App.world state messages selectedImage mimeType perform
                     update chatOpened chatRefused cleared analysisOpened
                     analysisRefused closeExchange] in *;
      try (split; assumption).
    + split; [exact E|]. intros m M I. apply H; [|exact I].
      destruct (messages (state w)) as [|m0 l]; [|exact M].
      cbn in M. injection M as <-. contradiction I. reflexivity.
    + split; [exact E|]. intros m M I. apply H; [|exact I].
      rewrite <- app_assoc in M.
      destruct (messages (state w)) as [|m0 l]; [|exact M].
      cbn in M. injection M as <-. contradiction I. reflexivity.
    + split; [tauto | discriminate].
    + split; [split; discriminate|].
      intros m M _. injection M as <-. exists b, t. repeat split.
    + split; [split; discriminate|].
      intros m M _. injection M as <-. exists b, t. repeat split.
    + split; [exact E|]. intros m M I. apply H; [|exact I].
      destruct (closingTurn_modelTurn (apologyOf x) (textOf (fallbackOf x) r))
        as [text T].
      rewrite T in M. apply (G _ _ _ M I).
Qed.

Lemma staged_image_matches_transcript_witness :
  selectedImage (state (App.world (App.session sampleKey
     [ App.Loaded sampleImage samplePng;
       App.Settle 0 (inr {| SDK.response_text := Some (js "Let's start") |}) ]
     App.initialPage))) = None
  <-> mimeType (state (App.world (App.session sampleKey
     [ App.Loaded sampleImage samplePng;
       App.Settle 0 (inr {| SDK.response_text := Some (js "Let's start") |}) ]
     App.initialPage))) = None.
Proof.
  apply (@staged_image_matches_transcript sampleKey).
  apply session_reachable, App.reachable_initial.
Defined.
